(** * A shallow embedding of [scraper.py]

    The asynchronous web scraper is modelled as pure functions over explicit
    state.  Wall-clock time ([time.time()], [asyncio.sleep]) is a rational
    number, Python integers are [Z], exceptions are an error result, and the
    network and the HTML parser are oracles handed to the functions that use
    them.  Cooperative scheduling of the tasks that share one rate limiter is
    a step function over a configuration, driven by an explicit schedule. *)

From Stdlib Require Import ZArith QArith List String Bool Lia Lqa.
Import ListNotations.
Open Scope Z_scope.

(** ** Exceptions and results *)

Inductive exn : Type :=
| ZeroDivisionError
| TimeoutExn
| ClientExn (msg : string)
| OtherExn (msg : string).

Inductive result (A : Type) : Type :=
| Ok (a : A)
| Raise (e : exn).
Arguments Ok {A} a.
Arguments Raise {A} e.

Definition is_ok {A} (r : result A) : bool :=
  match r with Ok _ => true | Raise _ => false end.

(** Python's [x / y] on floats, read over the rationals: a zero divisor
    raises. *)
Definition truediv (x y : Q) : result Q :=
  if Qeq_bool y 0 then Raise ZeroDivisionError else Ok (x / y)%Q.

(** ** Data model (scraper.py, lines 25-56) *)

Inductive ScraperStatus : Type := PENDING | RUNNING | COMPLETED | FAILED.

Record Article : Type := mkArticle {
  title : string;
  url : string;
  author : option string;
  published_date : option string;
  summary : option string;
  scraped_at : string
}.

Record ScraperStats : Type := mkStats {
  total_items : Z;
  successful_items : Z;
  failed_items : Z;
  total_time : Q;
  items_per_second : Q;
  status : ScraperStatus
}.

(** The dataclass defaults of [ScraperStats()]. *)
Definition ScraperStats_default : ScraperStats :=
  {| total_items := 0; successful_items := 0; failed_items := 0;
     total_time := 0%Q; items_per_second := 0%Q; status := PENDING |}.

(** ** RateLimiter (scraper.py, lines 59-72) *)

Module RateLimiter.

Record t : Type := mk {
  requests_per_second : Q;
  min_interval : Q;
  last_request_time : Q
}.

(** [__init__]: the float division [1.0 / requests_per_second] raises
    [ZeroDivisionError] on a zero divisor and nothing else is checked. *)
Definition init (rps : Q) : result t :=
  match truediv 1 rps with
  | Raise e => Raise e
  | Ok interval => Ok {| requests_per_second := rps;
                         min_interval := interval;
                         last_request_time := 0%Q |}
  end.

Definition set_last (self : t) (now : Q) : t :=
  {| requests_per_second := requests_per_second self;
     min_interval := min_interval self;
     last_request_time := now |}.

(** A call of [wait] runs to its end or suspends in [asyncio.sleep]; when
    it suspends, what is left to run is line 72, on the limiter as it is at
    the wake-up and with the time read then. *)
Inductive coroutine : Type :=
| Finished (self' : t)
| Awaiting (delay : Q) (resume : t -> Q -> t).

(** [wait], entered at time [now] (lines 69-72). *)
Definition wait (self : t) (now : Q) : coroutine :=
  let elapsed := (now - last_request_time self)%Q in
  if Qlt_le_dec elapsed (min_interval self)
  then Awaiting (min_interval self - elapsed)%Q set_last
  else Finished (set_last self now).

(** *** Callers sharing one limiter on one event loop

    Code between two [await]s runs without interruption, so a call of
    [wait] is one atomic step when it does not sleep and two atomic steps
    (up to the [await asyncio.sleep], and from the wake-up on) when it does.
    Other tasks run in between.  The clock of a configuration is the wall
    clock that [time.time()] reads; it may be set back, and the event loop,
    which times [asyncio.sleep] on a clock of its own, may wake a caller
    when the wall clock has not reached the deadline (kept in [Sleeping])
    yet. *)

Inductive caller : Type :=
| Idle
| Sleeping (wake : Q) (resume : t -> Q -> t).

Record config : Type := mkConfig {
  clock : Q;
  limiter : t;
  callers : list caller;
  grants : list Q        (* values stored by line 72, oldest first *)
}.

Inductive event : Type :=
| Tick (d : Q)           (* [time.time()] moves by [d], forward or back *)
| Enter (i : nat)        (* caller [i] calls [wait] *)
| Resume (i : nat).      (* caller [i] wakes up and runs the rest of [wait] *)

Fixpoint set_caller (cs : list caller) (i : nat) (c : caller) : list caller :=
  match cs, i with
  | [], _ => []
  | _ :: cs', O => c :: cs'
  | c0 :: cs', S i' => c0 :: set_caller cs' i' c
  end.

(** Caller [i] leaves [wait] with the limiter updated to [self']. *)
Definition grant (c : config) (i : nat) (self' : t) : config :=
  {| clock := clock c;
     limiter := self';
     callers := set_caller (callers c) i Idle;
     grants := grants c ++ [last_request_time self'] |}.

Definition step (c : config) (e : event) : option config :=
  match e with
  | Tick d =>
      Some {| clock := (clock c + d)%Q; limiter := limiter c;
              callers := callers c; grants := grants c |}
  | Enter i =>
      match nth_error (callers c) i with
      | Some Idle =>
          match wait (limiter c) (clock c) with
          | Awaiting d k =>
              Some {| clock := clock c; limiter := limiter c;
                      callers := set_caller (callers c) i
                                   (Sleeping (clock c + d)%Q k);
                      grants := grants c |}
          | Finished self' => Some (grant c i self')
          end
      | _ => None
      end
  | Resume i =>
      match nth_error (callers c) i with
      | Some (Sleeping wake k) => Some (grant c i (k (limiter c) (clock c)))
      | _ => None
      end
  end.

Fixpoint run (c : config) (sched : list event) : option config :=
  match sched with
  | [] => Some c
  | e :: sched' =>
      match step c e with
      | Some c' => run c' sched'
      | None => None
      end
  end.

Definition start (self : t) (n : nat) : config :=
  {| clock := 0%Q; limiter := self; callers := repeat Idle n; grants := [] |}.

(** Consecutive recorded grants are at least [m] apart. *)
Fixpoint spaced (m : Q) (gs : list Q) : Prop :=
  match gs with
  | g1 :: ((g2 :: _) as gs') => (m <= g2 - g1)%Q /\ spaced m gs'
  | _ => True
  end.

(** The most recent recorded grant. *)
Fixpoint last_grant (gs : list Q) : option Q :=
  match gs with
  | [] => None
  | [g] => Some g
  | _ :: gs' => last_grant gs'
  end.

(** A wake-up is punctual within [eps] when the wall clock is no more than
    [eps] short of the deadline; a schedule is when all its wake-ups are. *)
Definition on_time (eps : Q) (c : config) (e : event) : bool :=
  match e with
  | Resume i =>
      match nth_error (callers c) i with
      | Some (Sleeping wake _) => Qle_bool (wake - eps) (clock c)
      | _ => true
      end
  | _ => true
  end.

Fixpoint punctual (eps : Q) (c : config) (sched : list event) : bool :=
  match sched with
  | [] => true
  | e :: sched' =>
      on_time eps c e &&
      match step c e with
      | Some c' => punctual eps c' sched'
      | None => true
      end
  end.

(** The invariant of a limiter used by one caller at a time and woken
    within [eps] of its deadlines: the log is spaced, its last entry is the
    stored time stamp, and the deadline of a sleeping caller is
    [min_interval] after it. *)
Definition serial_inv (m eps : Q) (c : config) : Prop :=
  min_interval (limiter c) = m /\
  spaced (m - eps) (grants c) /\
  (forall g, last_grant (grants c) = Some g ->
             g = last_request_time (limiter c)) /\
  (callers c = [Idle] \/
   exists wake, callers c = [Sleeping wake set_last] /\
                (last_request_time (limiter c) + m <= wake)%Q).

Fixpoint spacedb (m : Q) (gs : list Q) : bool :=
  match gs with
  | g1 :: ((g2 :: _) as gs') => Qle_bool m (g2 - g1) && spacedb m gs'
  | _ => true
  end.

End RateLimiter.

(** ** WebScraper (scraper.py, lines 75-196) *)

Module WebScraper.

Record t : Type := mk {
  rate_limiter : RateLimiter.t;
  timeout : Z;
  max_retries : Z;
  stats : ScraperStats
}.

(** [__init__] (lines 78-92): the limiter is built first, so its error
    leaves the constructor; [aiohttp.ClientTimeout] checks nothing. *)
Definition init (rps : Q) (timeout : Z) (max_retries : Z) : result t :=
  match RateLimiter.init rps with
  | Raise e => Raise e
  | Ok rl => Ok {| rate_limiter := rl; timeout := timeout;
                   max_retries := max_retries;
                   stats := ScraperStats_default |}
  end.

Definition set_stats (self : t) (s : ScraperStats) : t :=
  {| rate_limiter := rate_limiter self; timeout := timeout self;
     max_retries := max_retries self; stats := s |}.

(** *** fetch_url (lines 94-123) *)

(** What the body of the [try] does on one attempt: the response of
    [session.get] with the text read from it, or the exception raised inside
    the [async with]. *)
Inductive attempt_outcome : Type :=
| Response (status : Z) (body : string)
| Failed (e : exn).

(** Effects of [fetch_url] that the environment can observe. *)
Inductive effect : Type :=
| Acquire                  (* await self.rate_limiter.wait() *)
| Get (u : string)         (* session.get(url, ...) *)
| Sleep (d : Z).           (* await asyncio.sleep(2 ** attempt) *)

(** Control flow out of one iteration of the [for] loop. *)
Inductive control : Type :=
| Return (body : string)   (* line 110 *)
| Propagate (e : exn)      (* an exception no [except] clause matches *)
| Continue.                (* fall through to line 119 *)

Definition handle (o : attempt_outcome) : control :=
  match o with
  | Response status body => if status =? 200 then Return body else Continue
  | Failed TimeoutExn => Continue
  | Failed (ClientExn _) => Continue
  | Failed e => Propagate e
  end.

(** Lines 119-120. *)
Definition backoff (max_retries attempt : Z) : list effect :=
  if attempt <? max_retries - 1 then [Sleep (2 ^ attempt)] else [].

(** The loop from [attempt] on, with [fuel] iterations left. *)
Fixpoint fetch_loop (max_retries : Z) (u : string)
    (net : Z -> attempt_outcome) (fuel : nat) (attempt : Z)
    : result (option string) * list effect :=
  match fuel with
  | O => (Ok None, [])                                   (* lines 122-123 *)
  | S fuel' =>
      match handle (net attempt) with
      | Return body => (Ok (Some body), [Acquire; Get u])
      | Propagate e => (Raise e, [Acquire; Get u])
      | Continue =>
          let (r, tr) := fetch_loop max_retries u net fuel' (attempt + 1) in
          (r, [Acquire; Get u] ++ backoff max_retries attempt ++ tr)
      end
  end.

(** [range(self.max_retries)] is empty when [max_retries <= 0]. *)
Definition fetch_url (self : t) (net : Z -> attempt_outcome) (u : string)
    : result (option string) * list effect :=
  fetch_loop (max_retries self) u net (Z.to_nat (max_retries self)) 0.

(** Observations on a trace. *)
Definition is_get (e : effect) : bool :=
  match e with Get _ => true | _ => false end.

Definition attempts (tr : list effect) : Z :=
  Z.of_nat (List.length (filter is_get tr)).

Fixpoint sleeps (tr : list effect) : list Z :=
  match tr with
  | [] => []
  | Sleep d :: tr' => d :: sleeps tr'
  | _ :: tr' => sleeps tr'
  end.

Definition total_sleep (tr : list effect) : Z :=
  fold_right Z.add 0 (sleeps tr).

(** The attempt counts as a failure that the loop retries. *)
Definition retryable (o : attempt_outcome) : bool :=
  match handle o with Continue => true | _ => false end.

Definition is_2xx (status : Z) : bool := (200 <=? status) && (status <? 300).

(** [sum(2**i for i in range(n))]. *)
Fixpoint sum_pow2 (n : nat) : Z :=
  match n with
  | O => 0
  | S n' => sum_pow2 n' + 2 ^ Z.of_nat n'
  end.

(** [list(range(a, a + n))]. *)
Fixpoint Zseq (a : Z) (n : nat) : list Z :=
  match n with
  | O => []
  | S n' => a :: Zseq (a + 1) n'
  end.

(** The trace of the attempts [a, a+1, ..., a+n-1] when all of them fail. *)
Fixpoint failed_trace (max_retries : Z) (u : string) (n : nat) (a : Z)
    : list effect :=
  match n with
  | O => []
  | S n' => [Acquire; Get u] ++ backoff max_retries a
              ++ failed_trace max_retries u n' (a + 1)
  end.

(** *** _scrape_single_url (lines 155-192) *)

(** What [BeautifulSoup(html, 'html.parser')] answers to the five [find]
    calls: the stripped text of a tag, or for a [meta] tag its [content]
    attribute, which [get] leaves [None] when absent. *)
Record Soup : Type := mkSoup {
  find_h1 : option string;
  find_title : option string;
  meta_author : option (option string);
  meta_published_time : option (option string);
  meta_description : option (option string)
}.

Definition content (tag : option (option string)) : option string :=
  match tag with Some c => c | None => None end.

Section Scraping.

(** The parser may raise; the clock supplies [datetime.utcnow().isoformat()]. *)
Variable parse : string -> result Soup.
Variable utcnow : string.

Definition extract (html u : string) : result Article :=
  match parse html with
  | Raise e => Raise e
  | Ok soup =>
      let title_tag :=
        match find_h1 soup with Some x => Some x | None => find_title soup end in
      let title :=
        match title_tag with Some x => x | None => "N/A"%string end in
      Ok {| title := title; url := u;
            author := content (meta_author soup);
            published_date := content (meta_published_time soup);
            summary := content (meta_description soup);
            scraped_at := utcnow |}
  end.

(** [if not html] is true for [None] and for the empty string; the
    [except Exception] clause turns every exception into [None]. *)
Definition _scrape_single_url (self : t) (net : Z -> attempt_outcome)
    (u : string) : option Article * list effect :=
  match fetch_url self net u with
  | (Raise _, tr) => (None, tr)
  | (Ok None, tr) => (None, tr)
  | (Ok (Some html), tr) =>
      if (html =? "")%string then (None, tr)
      else match extract html u with
           | Ok a => (Some a, tr)
           | Raise _ => (None, tr)
           end
  end.

(** *** scrape_articles (lines 125-153) *)

(** An element of the list returned by
    [asyncio.gather(..., return_exceptions=True)]. *)
Inductive gathered : Type :=
| GArticle (a : Article)
| GException (e : exn)
| GOther.

Definition of_task (r : option Article) : gathered :=
  match r with Some a => GArticle a | None => GOther end.

(** The assignments to [self.stats], one function per statement. *)
Definition set_status (s : ScraperStats) (st : ScraperStatus) : ScraperStats :=
  {| total_items := total_items s; successful_items := successful_items s;
     failed_items := failed_items s; total_time := total_time s;
     items_per_second := items_per_second s; status := st |}.

Definition set_total (s : ScraperStats) (n : Z) : ScraperStats :=
  {| total_items := n; successful_items := successful_items s;
     failed_items := failed_items s; total_time := total_time s;
     items_per_second := items_per_second s; status := status s |}.

Definition incr_successful (s : ScraperStats) : ScraperStats :=
  {| total_items := total_items s; successful_items := successful_items s + 1;
     failed_items := failed_items s; total_time := total_time s;
     items_per_second := items_per_second s; status := status s |}.

Definition incr_failed (s : ScraperStats) : ScraperStats :=
  {| total_items := total_items s; successful_items := successful_items s;
     failed_items := failed_items s + 1; total_time := total_time s;
     items_per_second := items_per_second s; status := status s |}.

Definition set_total_time (s : ScraperStats) (x : Q) : ScraperStats :=
  {| total_items := total_items s; successful_items := successful_items s;
     failed_items := failed_items s; total_time := x;
     items_per_second := items_per_second s; status := status s |}.

Definition set_items_per_second (s : ScraperStats) (x : Q) : ScraperStats :=
  {| total_items := total_items s; successful_items := successful_items s;
     failed_items := failed_items s; total_time := total_time s;
     items_per_second := x; status := status s |}.

(** Lines 127-128. *)
Definition begin_run (s : ScraperStats) (urls : list string) : ScraperStats :=
  set_total (set_status s RUNNING) (Z.of_nat (List.length urls)).

(** Lines 137-145, on the articles collected so far and the stats. *)
Fixpoint aggregate (results : list gathered) (articles : list Article)
    (s : ScraperStats) : list Article * ScraperStats :=
  match results with
  | [] => (articles, s)
  | GArticle a :: rest => aggregate rest (articles ++ [a]) (incr_successful s)
  | GException _ :: rest => aggregate rest articles (incr_failed s)
  | GOther :: rest => aggregate rest articles (incr_failed s)
  end.

(** Line 150: the conditional expression evaluates the division only when
    its test holds. *)
Definition throughput (successful : Z) (elapsed_time : Q) : result Q :=
  if Qlt_le_dec 0 elapsed_time then truediv (inject_Z successful) elapsed_time
  else Ok 0%Q.

(** Lines 148-151. *)
Definition finish_run (s : ScraperStats) (start_time end_time : Q)
    : result ScraperStats :=
  let elapsed_time := (end_time - start_time)%Q in
  let s1 := set_total_time s elapsed_time in
  match throughput (successful_items s1) elapsed_time with
  | Raise e => Raise e
  | Ok rate => Ok (set_status (set_items_per_second s1 rate) COMPLETED)
  end.

(** The articles among the gathered results, in their order. *)
Fixpoint collected (results : list gathered) : list Article :=
  match results with
  | [] => []
  | GArticle a :: rest => a :: collected rest
  | _ :: rest => collected rest
  end.

(** One task per position of [urls] (line 134), each making its own
    requests: [net i u] is what the network answers to the task at position
    [i], whose URL is [u].  [gather] returns their results in the order of
    [urls].  The effects are listed task by task. *)
Fixpoint run_tasks_from (self : t) (net : nat -> string -> Z -> attempt_outcome)
    (i : nat) (urls : list string) : list (option Article * list effect) :=
  match urls with
  | [] => []
  | u :: rest =>
      _scrape_single_url self (net i u) u :: run_tasks_from self net (S i) rest
  end.

Definition run_tasks (self : t) (net : nat -> string -> Z -> attempt_outcome)
    (urls : list string) : list (option Article * list effect) :=
  run_tasks_from self net 0 urls.

Definition gather (tasks : list (option Article * list effect))
    : list gathered :=
  map (fun r => of_task (fst r)) tasks.

Definition scrape_articles (self : t)
    (net : nat -> string -> Z -> attempt_outcome)
    (start_time end_time : Q) (urls : list string)
    : result (t * list Article * list effect) :=
  let s0 := begin_run (stats self) urls in
  let tasks := run_tasks self net urls in
  let results := gather tasks in
  let (articles, s1) := aggregate results [] s0 in
  match finish_run s1 start_time end_time with
  | Raise e => Raise e
  | Ok s2 => Ok (set_stats self s2, articles, List.concat (map snd tasks))
  end.

End Scraping.

(** [get_stats] (lines 194-196) copies the statistics out. *)
Definition get_stats (self : t) : ScraperStats := stats self.

(** Every request of a trace comes right after a call of the limiter, and
    nothing else is in the trace but sleeps. *)
Fixpoint paced (tr : list effect) : bool :=
  match tr with
  | [] => true
  | Acquire :: Get _ :: tr' => paced tr'
  | Sleep _ :: tr' => paced tr'
  | _ => false
  end.

(** The pipeline of one task, on the URL [u] and with the answers [net] to
    its requests, ends in an article. *)
Definition succeeds (parse : string -> result Soup) (utcnow : string)
    (self : t) (net : Z -> attempt_outcome) (u : string) : bool :=
  match fst (_scrape_single_url parse utcnow self net u) with
  | Some _ => true
  | None => false
  end.

(** [list(enumerate(urls, i))]. *)
Fixpoint enumerate_from (i : nat) (urls : list string) : list (nat * string) :=
  match urls with
  | [] => []
  | u :: rest => (i, u) :: enumerate_from (S i) rest
  end.

(** The positions of [urls], with their URLs, whose task ends in an
    article. *)
Definition successes (parse : string -> result Soup) (utcnow : string)
    (self : t) (net : nat -> string -> Z -> attempt_outcome)
    (urls : list string) : list (nat * string) :=
  filter (fun p => succeeds parse utcnow self (net (fst p) (snd p)) (snd p))
    (enumerate_from 0 urls).

(** Every assignment to a field of [self.stats] in the source. *)
Inductive stats_write : ScraperStats -> ScraperStats -> Prop :=
| write_running s : stats_write s (set_status s RUNNING)             (* 127 *)
| write_total s n : stats_write s (set_total s n)                    (* 128 *)
| write_successful s : stats_write s (incr_successful s)             (* 140 *)
| write_failed s : stats_write s (incr_failed s)                (* 142, 145 *)
| write_total_time s x : stats_write s (set_total_time s x)          (* 149 *)
| write_rate s x : stats_write s (set_items_per_second s x)          (* 150 *)
| write_completed s : stats_write s (set_status s COMPLETED).        (* 151 *)


End WebScraper.

(** ** Concrete runs *)

(** [RateLimiter(2.0)], the limiter of [main()]. *)
Definition limiter2 : RateLimiter.t :=
  {| RateLimiter.requests_per_second := 2%Q;
     RateLimiter.min_interval := (1 / 2)%Q;
     RateLimiter.last_request_time := 0%Q |}.

(** Three tasks of one [gather] call [wait] at time 10.  The first is let
    through; the other two both read the same time stamp, both sleep half a
    second, and both wake at 10.5. *)
Definition race_schedule : list RateLimiter.event :=
  [RateLimiter.Tick 10%Q;
   RateLimiter.Enter 0; RateLimiter.Enter 1; RateLimiter.Enter 2;
   RateLimiter.Tick (1 # 2)%Q;
   RateLimiter.Resume 1; RateLimiter.Resume 2].

(** One task calls [wait] twice at time 10; its sleep of half a second
    ends after 0.45 s of wall-clock time. *)
Definition early_schedule : list RateLimiter.event :=
  [RateLimiter.Tick 10%Q; RateLimiter.Enter 0; RateLimiter.Enter 0;
   RateLimiter.Tick (9 # 20)%Q; RateLimiter.Resume 0].

(** A scraper as [WebScraper(requests_per_second=2.0, max_retries=m)]
    builds it. *)
Definition scraper (m : Z) : WebScraper.t :=
  {| WebScraper.rate_limiter := limiter2; WebScraper.timeout := 10;
     WebScraper.max_retries := m; WebScraper.stats := ScraperStats_default |}.

(** A parser that finds one heading and nothing else. *)
Definition parse_heading (html : string) : result WebScraper.Soup :=
  Ok {| WebScraper.find_h1 := Some "Example"%string;
        WebScraper.find_title := None;
        WebScraper.meta_author := None;
        WebScraper.meta_published_time := None;
        WebScraper.meta_description := None |}.

Definition always_200 (i : nat) (u : string) (attempt : Z)
    : WebScraper.attempt_outcome :=
  WebScraper.Response 200 "<h1>Example</h1>".

Definition always_timeout (i : nat) (u : string) (attempt : Z)
    : WebScraper.attempt_outcome :=
  WebScraper.Failed TimeoutExn.

(** The task at position 0 is answered, every other task times out. *)
Definition first_only (i : nat) (u : string) (attempt : Z)
    : WebScraper.attempt_outcome :=
  match i with
  | O => always_200 i u attempt
  | S _ => always_timeout i u attempt
  end.

(** The scraper left by a first call of [scrape_articles] on [urls], and
    what a second call on that same instance returns. *)
Definition after_first_run
    (net : nat -> string -> Z -> WebScraper.attempt_outcome)
    (urls : list string) : WebScraper.t :=
  match WebScraper.scrape_articles parse_heading "t" (scraper 1) net
          0%Q 1%Q urls with
  | Ok (self, _, _) => self
  | Raise _ => scraper 1
  end.

Definition second_run
    (net : nat -> string -> Z -> WebScraper.attempt_outcome)
    (urls1 urls2 : list string)
    : result (WebScraper.t * list Article * list WebScraper.effect) :=
  WebScraper.scrape_articles parse_heading "t" (after_first_run net urls1) net
    1%Q 2%Q urls2.

(** ** main (scraper.py, lines 203-262)

    What [main()] computes before it prints and writes the JSON file: the
    scraper of line 218, one call of [scrape_articles] on the three URLs of
    lines 207-211, and [get_stats].  The output of lines 227-262 is not
    part of it. *)
Definition main_urls : list string :=
  ["https://news.ycombinator.com"; "https://www.reddit.com/r/programming";
   "https://www.techcrunch.com"]%string.

Definition main (parse : string -> result WebScraper.Soup) (utcnow : string)
    (net : nat -> string -> Z -> WebScraper.attempt_outcome)
    (start_time end_time : Q)
    : result (list Article * ScraperStats * list WebScraper.effect) :=
  match WebScraper.init 2 10 3 with
  | Raise e => Raise e
  | Ok scraper =>
      match WebScraper.scrape_articles parse utcnow scraper net
              start_time end_time main_urls with
      | Raise e => Raise e
      | Ok (scraper', articles, tr) =>
          Ok (articles, WebScraper.get_stats scraper', tr)
      end
  end.

(** * Properties *)

(** ** The rate limiter *)

Lemma spaced_snoc (m : Q) (gs : list Q) (g : Q) :
  RateLimiter.spaced m gs ->
  (forall g', RateLimiter.last_grant gs = Some g' -> (m <= g - g')%Q) ->
  RateLimiter.spaced m (gs ++ [g]).
Proof.
  induction gs as [|g1 gs IH]; intros Hs Hl; [exact I|].
  destruct gs as [|g2 gs'].
  - simpl. split; [|exact I]. apply Hl. reflexivity.
  - destruct Hs as [H12 Hs]. split; [exact H12|].
    apply IH; [exact Hs|]. intros g' Hg'. apply Hl. exact Hg'.
Qed.

Lemma last_grant_snoc (gs : list Q) (g : Q) :
  RateLimiter.last_grant (gs ++ [g]) = Some g.
Proof.
  induction gs as [|g1 gs IH]; [reflexivity|].
  destruct gs as [|g2 gs']; [reflexivity|]. exact IH.
Qed.

Lemma spacedb_spaced (m : Q) (gs : list Q) :
  RateLimiter.spacedb m gs = true <-> RateLimiter.spaced m gs.
Proof.
  induction gs as [|g1 gs IH]; [simpl; tauto|].
  destruct gs as [|g2 gs']; [simpl; tauto|].
  change (RateLimiter.spacedb m (g1 :: g2 :: gs'))
    with (Qle_bool m (g2 - g1) && RateLimiter.spacedb m (g2 :: gs')).
  change (RateLimiter.spaced m (g1 :: g2 :: gs'))
    with ((m <= g2 - g1)%Q /\ RateLimiter.spaced m (g2 :: gs')).
  rewrite andb_true_iff, Qle_bool_iff, IH. tauto.
Qed.

Lemma serial_inv_start (self : RateLimiter.t) (eps : Q) :
  RateLimiter.serial_inv (RateLimiter.min_interval self) eps
    (RateLimiter.start self 1).
Proof.
  unfold RateLimiter.serial_inv. simpl.
  repeat split; [discriminate | left; reflexivity].
Qed.

Lemma serial_inv_grant (m eps : Q) (c : RateLimiter.config) (now : Q) :
  RateLimiter.min_interval (RateLimiter.limiter c) = m ->
  RateLimiter.spaced (m - eps) (RateLimiter.grants c) ->
  (forall g, RateLimiter.last_grant (RateLimiter.grants c) = Some g ->
             (m - eps <= now - g)%Q) ->
  List.length (RateLimiter.callers c) = 1%nat ->
  RateLimiter.serial_inv m eps
    (RateLimiter.grant c 0 (RateLimiter.set_last (RateLimiter.limiter c) now)).
Proof.
  intros Hm Hs Hl Hlen. unfold RateLimiter.serial_inv. simpl.
  split; [exact Hm|]. split; [apply spaced_snoc; assumption|].
  split.
  - intros g Hg. rewrite last_grant_snoc in Hg. congruence.
  - left. destruct (RateLimiter.callers c) as [|x [|y l]];
      try discriminate. reflexivity.
Qed.

Lemma serial_inv_step (m eps : Q) (c c' : RateLimiter.config)
    (e : RateLimiter.event) :
  (0 <= eps)%Q ->
  RateLimiter.serial_inv m eps c ->
  RateLimiter.on_time eps c e = true ->
  RateLimiter.step c e = Some c' ->
  RateLimiter.serial_inv m eps c'.
Proof.
  intros Heps (Hm & Hs & Hl & Hc) Htime Hstep.
  assert (Hlen : List.length (RateLimiter.callers c) = 1%nat).
  { destruct Hc as [Hc | (w & Hc & _)]; rewrite Hc; reflexivity. }
  destruct e as [d | i | i];
    unfold RateLimiter.step in Hstep; unfold RateLimiter.on_time in Htime.
  - injection Hstep as <-.
    unfold RateLimiter.serial_inv. simpl. auto.
  - destruct (nth_error (RateLimiter.callers c) i) as [[|w k]|] eqn:Hi;
      try discriminate.
    destruct Hc as [Hc | (w & Hc & _)]; rewrite Hc in Hi;
      destruct i as [|[|i]]; try discriminate.
    unfold RateLimiter.wait in Hstep.
    destruct (Qlt_le_dec _ _) as [Hlt | Hge]; injection Hstep as <-.
    + unfold RateLimiter.serial_inv. simpl. rewrite Hc. simpl.
      repeat split; try assumption. right. eexists. split; [reflexivity|].
      rewrite Hm. lra.
    + apply serial_inv_grant; try assumption.
      intros g Hg. rewrite (Hl g Hg). rewrite Hm in Hge. lra.
  - destruct (nth_error (RateLimiter.callers c) i) as [[|w k]|] eqn:Hi;
      try discriminate.
    injection Hstep as <-. apply Qle_bool_iff in Htime.
    destruct Hc as [Hc | (w' & Hc & Hw)]; rewrite Hc in Hi;
      destruct i as [|[|i]]; try discriminate.
    injection Hi as Hw' Hk. subst w k.
    apply serial_inv_grant; try assumption.
    intros g Hg. rewrite (Hl g Hg). lra.
Qed.

Lemma spaced_weaken (m m' : Q) (gs : list Q) :
  (m' <= m)%Q -> RateLimiter.spaced m gs -> RateLimiter.spaced m' gs.
Proof.
  intros Hm. induction gs as [|g1 gs IH]; [trivial|].
  destruct gs as [|g2 gs']; [trivial|].
  intros [H12 Hs]. split; [lra | apply IH; exact Hs].
Qed.

(** When one task at a time is inside [wait] (here: a single caller making
    any number of calls) and no wake-up comes more than [eps] before its
    deadline on the wall clock, consecutive grants are [min_interval - eps]
    apart. *)
Lemma wait_serial_spaced_within (self : RateLimiter.t) (eps : Q)
    (sched : list RateLimiter.event) (c : RateLimiter.config) :
  (0 <= eps)%Q ->
  RateLimiter.run (RateLimiter.start self 1) sched = Some c ->
  RateLimiter.punctual eps (RateLimiter.start self 1) sched = true ->
  RateLimiter.spaced (RateLimiter.min_interval self - eps)
    (RateLimiter.grants c).
Proof.
  intros Heps Hrun Hpun.
  assert (Hinv : RateLimiter.serial_inv (RateLimiter.min_interval self) eps c).
  { revert Hrun Hpun. generalize (serial_inv_start self eps).
    generalize (RateLimiter.start self 1) as c0.
    induction sched as [|e sched IH]; intros c0 H0 Hrun Hpun;
      simpl in Hrun, Hpun.
    - injection Hrun as <-. exact H0.
    - destruct (RateLimiter.step c0 e) as [c1|] eqn:Hstep; [|discriminate].
      apply andb_true_iff in Hpun. destruct Hpun as [Htime Hpun].
      eapply IH; [|exact Hrun|exact Hpun].
      eapply serial_inv_step; eassumption. }
  apply Hinv.
Qed.

(** With wake-ups that are never early, they are [min_interval] apart. *)
Lemma wait_serial_spaced (self : RateLimiter.t) (sched : list RateLimiter.event)
    (c : RateLimiter.config) :
  RateLimiter.run (RateLimiter.start self 1) sched = Some c ->
  RateLimiter.punctual 0 (RateLimiter.start self 1) sched = true ->
  RateLimiter.spaced (RateLimiter.min_interval self) (RateLimiter.grants c).
Proof.
  intros Hrun Hpun.
  apply (spaced_weaken (RateLimiter.min_interval self - 0)); [lra|].
  apply (wait_serial_spaced_within self 0 sched c); [lra | assumption ..].
Qed.

(** C1, on the code: with [requests_per_second = 2] and three tasks sharing
    the limiter, the schedule [race_schedule] is a run of [wait] in which the
    second and third grants are recorded at the same instant 10.5, less than
    [min_interval = 0.5] apart. *)
Theorem wait_race_grants_together :
  RateLimiter.init 2 = Ok limiter2 /\
  exists c,
    RateLimiter.run (RateLimiter.start limiter2 3) race_schedule = Some c /\
    map Qred (RateLimiter.grants c) = [10; 21 # 2; 21 # 2]%Q /\
    ~ RateLimiter.spaced (RateLimiter.min_interval limiter2)
        (RateLimiter.grants c).
Proof.
  split; [reflexivity|].
  destruct (RateLimiter.run (RateLimiter.start limiter2 3) race_schedule)
    as [c|] eqn:Hrun; [|vm_compute in Hrun; discriminate].
  exists c. split; [reflexivity|].
  vm_compute in Hrun. injection Hrun as <-.
  split; [vm_compute; reflexivity|].
  rewrite <- spacedb_spaced. vm_compute. discriminate.
Qed.

(** In [race_schedule] no wake-up is early and the clock only moves
    forward. *)
Lemma race_schedule_punctual :
  RateLimiter.punctual 0 (RateLimiter.start limiter2 3) race_schedule = true.
Proof.
  vm_compute. reflexivity.
Qed.

(** ** Construction *)

(** C7, as stated, fails: a negative rate is accepted by both
    constructors, with a negative [min_interval]. *)
Lemma init_negative_rate_accepted :
  (-1 <= 0)%Q /\
  RateLimiter.init (-1) =
    Ok {| RateLimiter.requests_per_second := (-1)%Q;
          RateLimiter.min_interval := (1 / -1)%Q;
          RateLimiter.last_request_time := 0%Q |} /\
  is_ok (WebScraper.init (-1) 10 3) = true /\
  (1 / -1 < 0)%Q.
Proof.
  repeat split; try reflexivity. discriminate.
Qed.

(** C7, amended: the only rate the constructors reject is zero, by the
    [ZeroDivisionError] of [1.0 / requests_per_second]; every other rate,
    positive or negative, gives [min_interval = 1 / requests_per_second],
    a zero time stamp and, for the scraper, fresh statistics. *)
Theorem init_rejects_only_zero_rate (rps : Q) (timeout max_retries : Z) :
  (rps == 0 ->
     RateLimiter.init rps = Raise ZeroDivisionError /\
     WebScraper.init rps timeout max_retries = Raise ZeroDivisionError)%Q /\
  (~ rps == 0 ->
     RateLimiter.init rps =
       Ok {| RateLimiter.requests_per_second := rps;
             RateLimiter.min_interval := 1 / rps;
             RateLimiter.last_request_time := 0 |} /\
     WebScraper.init rps timeout max_retries =
       Ok {| WebScraper.rate_limiter :=
               {| RateLimiter.requests_per_second := rps;
                  RateLimiter.min_interval := 1 / rps;
                  RateLimiter.last_request_time := 0 |};
             WebScraper.timeout := timeout;
             WebScraper.max_retries := max_retries;
             WebScraper.stats := ScraperStats_default |})%Q.
Proof.
  unfold WebScraper.init, RateLimiter.init, truediv.
  split; intros H.
  - apply Qeq_bool_iff in H. rewrite H. split; reflexivity.
  - destruct (Qeq_bool rps 0) eqn:E.
    + apply Qeq_bool_iff in E. contradiction.
    + split; reflexivity.
Qed.

Lemma init_rejects_only_zero_rate_witness :
  RateLimiter.init 0 = Raise ZeroDivisionError /\
  RateLimiter.min_interval limiter2 = (1 / 2)%Q /\
  RateLimiter.init 2 = Ok limiter2.
Proof.
  split.
  - apply (proj1 (init_rejects_only_zero_rate 0 10 3)). reflexivity.
  - split; [reflexivity|].
    apply (proj2 (init_rejects_only_zero_rate 2 10 3)). discriminate.
Defined.

(** ** The retry loop *)

Lemma retryable_handle (o : WebScraper.attempt_outcome) :
  WebScraper.retryable o = true -> WebScraper.handle o = WebScraper.Continue.
Proof.
  unfold WebScraper.retryable. destruct (WebScraper.handle o);
    [discriminate | discriminate | reflexivity].
Qed.

Lemma retryable_spec (o : WebScraper.attempt_outcome) :
  WebScraper.retryable o = true <->
  (exists status body, o = WebScraper.Response status body /\ status <> 200)
  \/ o = WebScraper.Failed TimeoutExn
  \/ exists msg, o = WebScraper.Failed (ClientExn msg).
Proof.
  unfold WebScraper.retryable, WebScraper.handle. split.
  - destruct o as [status body | [ | | msg | msg]]; try discriminate.
    + destruct (Z.eqb_spec status 200); [discriminate|].
      intros _. left. exists status, body. split; [reflexivity | assumption].
    + intros _. right. left. reflexivity.
    + intros _. right. right. exists msg. reflexivity.
  - intros [(status & body & -> & Hs) | [-> | (msg & ->)]];
      try reflexivity.
    destruct (Z.eqb_spec status 200); [contradiction | reflexivity].
Qed.

(** After [k] failed attempts the loop is where it would be had it started
    at attempt [a + k], with the trace of the failures in front. *)
Lemma fetch_loop_prefix (m : Z) (u : string)
    (net : Z -> WebScraper.attempt_outcome) (fuel k : nat) :
  forall a : Z,
  (forall i, a <= i < a + Z.of_nat k -> WebScraper.retryable (net i) = true) ->
  WebScraper.fetch_loop m u net (k + fuel) a =
    (fst (WebScraper.fetch_loop m u net fuel (a + Z.of_nat k)),
     WebScraper.failed_trace m u k a ++
       snd (WebScraper.fetch_loop m u net fuel (a + Z.of_nat k))).
Proof.
  induction k as [|k IH]; intros a Hfail.
  - simpl. rewrite Z.add_0_r.
    destruct (WebScraper.fetch_loop m u net fuel a); reflexivity.
  - cbn [Nat.add WebScraper.fetch_loop WebScraper.failed_trace].
    rewrite (retryable_handle (net a)) by (apply Hfail; lia).
    rewrite IH by (intros i Hi; apply Hfail; lia).
    replace (a + 1 + Z.of_nat k) with (a + Z.of_nat (S k)) by lia.
    cbn [fst snd]. rewrite <- !app_assoc. reflexivity.
Qed.

Lemma fetch_loop_all_fail (m : Z) (u : string)
    (net : Z -> WebScraper.attempt_outcome) (k : nat) (a : Z) :
  (forall i, a <= i < a + Z.of_nat k -> WebScraper.retryable (net i) = true) ->
  WebScraper.fetch_loop m u net k a =
    (Ok None, WebScraper.failed_trace m u k a).
Proof.
  intros Hfail. replace k with (k + 0)%nat at 1 by lia.
  rewrite fetch_loop_prefix by assumption. simpl. rewrite app_nil_r.
  reflexivity.
Qed.

Lemma attempts_app (tr1 tr2 : list WebScraper.effect) :
  WebScraper.attempts (tr1 ++ tr2) =
  WebScraper.attempts tr1 + WebScraper.attempts tr2.
Proof.
  unfold WebScraper.attempts. rewrite filter_app, length_app. lia.
Qed.

Lemma sleeps_app (tr1 tr2 : list WebScraper.effect) :
  WebScraper.sleeps (tr1 ++ tr2) =
  WebScraper.sleeps tr1 ++ WebScraper.sleeps tr2.
Proof.
  induction tr1 as [|[ | v | d] tr1 IH]; simpl; congruence.
Qed.

Lemma attempts_backoff (m a : Z) :
  WebScraper.attempts (WebScraper.backoff m a) = 0.
Proof.
  unfold WebScraper.backoff. destruct (a <? m - 1); reflexivity.
Qed.

Lemma attempts_failed_trace (m : Z) (u : string) (k : nat) :
  forall a, WebScraper.attempts (WebScraper.failed_trace m u k a) = Z.of_nat k.
Proof.
  induction k as [|k IH]; intros a; [reflexivity|].
  cbn [WebScraper.failed_trace].
  rewrite !attempts_app, attempts_backoff, IH.
  change (WebScraper.attempts [WebScraper.Acquire; WebScraper.Get u]) with 1.
  lia.
Qed.

(** The loop sleeps after every failed attempt except the one numbered
    [max_retries - 1]. *)
Lemma sleeps_failed_trace (m : Z) (u : string) (k : nat) :
  forall a, a + Z.of_nat k = m ->
  WebScraper.sleeps (WebScraper.failed_trace m u k a) =
  map (Z.pow 2) (WebScraper.Zseq a (Nat.pred k)).
Proof.
  induction k as [|k IH]; intros a Ham; [reflexivity|].
  cbn [WebScraper.failed_trace]. rewrite !sleeps_app.
  rewrite IH by lia. unfold WebScraper.backoff.
  destruct k as [|k].
  - destruct (Z.ltb_spec a (m - 1)); [lia | reflexivity].
  - destruct (Z.ltb_spec a (m - 1)); [reflexivity | lia].
Qed.

Lemma sum_pow2_closed (n : nat) : WebScraper.sum_pow2 n = 2 ^ Z.of_nat n - 1.
Proof.
  induction n as [|n IH]; [reflexivity|].
  cbn [WebScraper.sum_pow2]. rewrite IH.
  replace (Z.of_nat (S n)) with (Z.of_nat n + 1) by lia.
  rewrite Z.pow_add_r by lia. lia.
Qed.

Lemma sum_Zseq_pow2 (n : nat) :
  forall a, 0 <= a ->
  fold_right Z.add 0 (map (Z.pow 2) (WebScraper.Zseq a n)) =
  2 ^ (a + Z.of_nat n) - 2 ^ a.
Proof.
  induction n as [|n IH]; intros a Ha.
  - simpl. rewrite Z.add_0_r. lia.
  - cbn [WebScraper.Zseq map fold_right]. rewrite IH by lia.
    replace (a + 1 + Z.of_nat n) with (a + Z.of_nat (S n)) by lia.
    rewrite (Z.pow_add_r 2 a 1) by lia. lia.
Qed.

(** C3: when every attempt fails, [fetch_url] makes exactly [max_retries]
    requests, each followed by its back-off except the last, so that it
    sleeps [2^0, ..., 2^(max_retries-2)], in total
    [sum(2^i for i in 0..max_retries-2)]; with [max_retries = 1] there is one
    request and no sleep. *)
Theorem fetch_url_always_failing (self : WebScraper.t)
    (net : Z -> WebScraper.attempt_outcome) (u : string) :
  1 <= WebScraper.max_retries self ->
  (forall i, 0 <= i < WebScraper.max_retries self ->
             WebScraper.retryable (net i) = true) ->
  let m := WebScraper.max_retries self in
  let tr := snd (WebScraper.fetch_url self net u) in
  tr = WebScraper.failed_trace m u (Z.to_nat m) 0 /\
  WebScraper.attempts tr = m /\
  WebScraper.sleeps tr = map (Z.pow 2) (WebScraper.Zseq 0 (Z.to_nat (m - 1))) /\
  WebScraper.total_sleep tr = WebScraper.sum_pow2 (Z.to_nat (m - 1)) /\
  (m = 1 -> WebScraper.attempts tr = 1 /\ WebScraper.sleeps tr = [] /\
            WebScraper.total_sleep tr = 0).
Proof.
  intros Hm Hfail m tr.
  assert (Htr : tr = WebScraper.failed_trace m u (Z.to_nat m) 0).
  { unfold tr, WebScraper.fetch_url. fold m.
    rewrite fetch_loop_all_fail; [reflexivity|].
    intros i Hi. apply Hfail. fold m. lia. }
  assert (Hsl : WebScraper.sleeps tr =
                map (Z.pow 2) (WebScraper.Zseq 0 (Z.to_nat (m - 1)))).
  { rewrite Htr, sleeps_failed_trace by lia.
    replace (Nat.pred (Z.to_nat m)) with (Z.to_nat (m - 1)) by lia.
    reflexivity. }
  assert (Htot : WebScraper.total_sleep tr =
                 WebScraper.sum_pow2 (Z.to_nat (m - 1))).
  { unfold WebScraper.total_sleep. rewrite Hsl, sum_Zseq_pow2 by lia.
    rewrite sum_pow2_closed. simpl. lia. }
  assert (Hat : WebScraper.attempts tr = m).
  { rewrite Htr, attempts_failed_trace. lia. }
  repeat split; try assumption.
  - lia.
  - rewrite Hsl. replace (m - 1) with 0 by lia. reflexivity.
  - rewrite Htot. replace (m - 1) with 0 by lia. reflexivity.
Qed.

Lemma fetch_url_always_failing_witness :
  snd (WebScraper.fetch_url (scraper 3)
         (fun _ => WebScraper.Failed TimeoutExn) "u")
  = [WebScraper.Acquire; WebScraper.Get "u"; WebScraper.Sleep 1;
     WebScraper.Acquire; WebScraper.Get "u"; WebScraper.Sleep 2;
     WebScraper.Acquire; WebScraper.Get "u"] /\
  WebScraper.total_sleep
    (snd (WebScraper.fetch_url (scraper 3)
            (fun _ => WebScraper.Response 500 "") "u")) =
    WebScraper.sum_pow2 2 /\
  WebScraper.attempts
    (snd (WebScraper.fetch_url (scraper 1)
            (fun _ => WebScraper.Failed (ClientExn "refused")) "u")) = 1.
Proof.
  split; [|split].
  - apply (fetch_url_always_failing (scraper 3)
             (fun _ => WebScraper.Failed TimeoutExn) "u");
      [simpl; lia | reflexivity].
  - apply (fetch_url_always_failing (scraper 3)
             (fun _ => WebScraper.Response 500 "") "u");
      [simpl; lia | reflexivity].
  - apply (fetch_url_always_failing (scraper 1)
             (fun _ => WebScraper.Failed (ClientExn "refused")) "u");
      [simpl; lia | reflexivity | reflexivity].
Defined.

(** C6: when every attempt ends in a status other than 200, a timeout or a
    client error, [fetch_url] returns [None]; it does not raise. *)
Theorem fetch_url_exhausted_returns_None (self : WebScraper.t)
    (net : Z -> WebScraper.attempt_outcome) (u : string) :
  (forall i, 0 <= i < WebScraper.max_retries self ->
     (exists status body,
        net i = WebScraper.Response status body /\ status <> 200)
     \/ net i = WebScraper.Failed TimeoutExn
     \/ exists msg, net i = WebScraper.Failed (ClientExn msg)) ->
  fst (WebScraper.fetch_url self net u) = Ok None.
Proof.
  intros Hfail. unfold WebScraper.fetch_url.
  rewrite fetch_loop_all_fail; [reflexivity|].
  intros i Hi. apply retryable_spec. apply Hfail. lia.
Qed.

Lemma fetch_url_exhausted_returns_None_witness :
  fst (WebScraper.fetch_url (scraper 3)
         (fun i => if i =? 0 then WebScraper.Response 404 "not found"
                   else if i =? 1 then WebScraper.Failed TimeoutExn
                   else WebScraper.Failed (ClientExn "reset")) "u") = Ok None.
Proof.
  apply fetch_url_exhausted_returns_None. intros i Hi.
  destruct (Z.eqb_spec i 0) as [-> | H0].
  - left. exists 404, "not found"%string. split; [reflexivity | discriminate].
  - destruct (Z.eqb_spec i 1) as [-> | H1].
    + right. left. reflexivity.
    + right. right. exists "reset"%string.
      destruct (Z.eqb_spec i 0); [contradiction|].
      destruct (Z.eqb_spec i 1); [contradiction|]. reflexivity.
Defined.

(** C4, as stated, fails: a 204 response is a 2xx response, and the loop
    treats it as a failure: it retries and in the end returns [None]. *)
Lemma fetch_url_204_is_retried :
  WebScraper.is_2xx 204 = true /\
  WebScraper.fetch_url (scraper 3)
    (fun _ => WebScraper.Response 204 "body") "u" =
  (Ok None,
   [WebScraper.Acquire; WebScraper.Get "u"; WebScraper.Sleep 1;
    WebScraper.Acquire; WebScraper.Get "u"; WebScraper.Sleep 2;
    WebScraper.Acquire; WebScraper.Get "u"]).
Proof.
  split; reflexivity.
Qed.

(** C4, amended: at an attempt reached after failures only, a response
    with status exactly 200 makes [fetch_url] return its body with no further
    request; every other outcome that is a response (of any status, 2xx
    included), a timeout or a client error is a failure of that attempt
    after which the loop goes on as for any other such failure, and returns
    [None] when the attempt was the last. *)
Theorem fetch_url_attempt_policy (self : WebScraper.t)
    (net : Z -> WebScraper.attempt_outcome) (u : string) (a : Z) :
  0 <= a < WebScraper.max_retries self ->
  (forall i, 0 <= i < a -> WebScraper.retryable (net i) = true) ->
  let m := WebScraper.max_retries self in
  (forall body, net a = WebScraper.Response 200 body ->
     WebScraper.fetch_url self net u =
       (Ok (Some body),
        WebScraper.failed_trace m u (Z.to_nat a) 0 ++
          [WebScraper.Acquire; WebScraper.Get u])) /\
  (WebScraper.retryable (net a) = true ->
     WebScraper.fetch_url self net u =
       (fst (WebScraper.fetch_loop m u net (Z.to_nat (m - a - 1)) (a + 1)),
        WebScraper.failed_trace m u (Z.to_nat (a + 1)) 0 ++
          snd (WebScraper.fetch_loop m u net (Z.to_nat (m - a - 1)) (a + 1)))
     /\ (a = m - 1 -> fst (WebScraper.fetch_url self net u) = Ok None)) /\
  (forall o, WebScraper.retryable o = true <->
     (exists status body,
        o = WebScraper.Response status body /\ status <> 200)
     \/ o = WebScraper.Failed TimeoutExn
     \/ exists msg, o = WebScraper.Failed (ClientExn msg)).
Proof.
  intros Ha Hfail m. split; [|split].
  - intros body Hnet. unfold WebScraper.fetch_url. fold m.
    replace (Z.to_nat m) with (Z.to_nat a + S (Z.to_nat (m - a - 1)))%nat
      by (unfold m; lia).
    rewrite fetch_loop_prefix by (intros i Hi; apply Hfail; lia).
    rewrite Z2Nat.id, Z.add_0_l by lia.
    cbn [WebScraper.fetch_loop]. rewrite Hnet. reflexivity.
  - intros Hretry.
    assert (Heq : WebScraper.fetch_url self net u =
      (fst (WebScraper.fetch_loop m u net (Z.to_nat (m - a - 1)) (a + 1)),
       WebScraper.failed_trace m u (Z.to_nat (a + 1)) 0 ++
         snd (WebScraper.fetch_loop m u net (Z.to_nat (m - a - 1)) (a + 1)))).
    { unfold WebScraper.fetch_url. fold m.
      replace (Z.to_nat m) with (Z.to_nat (a + 1) + Z.to_nat (m - a - 1))%nat
        by (unfold m; lia).
      rewrite fetch_loop_prefix.
      - rewrite Z2Nat.id, Z.add_0_l by lia. reflexivity.
      - intros i Hi. destruct (Z.eq_dec i a) as [-> | Hne];
          [exact Hretry | apply Hfail; lia]. }
    split; [exact Heq|].
    intros Hlast. rewrite Heq. replace (m - a - 1) with 0 by lia.
    reflexivity.
  - exact retryable_spec.
Qed.

Lemma fetch_url_attempt_policy_witness :
  WebScraper.fetch_url (scraper 3)
    (fun i => if i =? 0 then WebScraper.Response 503 "busy"
              else WebScraper.Response 200 "<h1>ok</h1>") "u"
  = (Ok (Some "<h1>ok</h1>"%string),
     [WebScraper.Acquire; WebScraper.Get "u"; WebScraper.Sleep 1;
      WebScraper.Acquire; WebScraper.Get "u"]).
Proof.
  refine (proj1 (fetch_url_attempt_policy (scraper 3)
            (fun i => if i =? 0 then WebScraper.Response 503 "busy"
                      else WebScraper.Response 200 "<h1>ok</h1>") "u" 1
            _ _) "<h1>ok</h1>"%string eq_refl).
  - simpl. lia.
  - intros i Hi. replace i with 0 by lia. reflexivity.
Defined.

(** ** Aggregation and statistics *)

Lemma collected_length (results : list WebScraper.gathered) :
  (List.length (WebScraper.collected results) <= List.length results)%nat.
Proof.
  induction results as [|[a | e | ] rest IH]; simpl; lia.
Qed.

Lemma aggregate_fields (results : list WebScraper.gathered) :
  forall (articles : list Article) (s : ScraperStats),
  let r := WebScraper.aggregate results articles s in
  fst r = articles ++ WebScraper.collected results /\
  total_items (snd r) = total_items s /\
  successful_items (snd r) =
    successful_items s + Z.of_nat (List.length (WebScraper.collected results)) /\
  failed_items (snd r) =
    failed_items s + (Z.of_nat (List.length results)
                      - Z.of_nat (List.length (WebScraper.collected results))) /\
  total_time (snd r) = total_time s /\
  items_per_second (snd r) = items_per_second s /\
  status (snd r) = status s.
Proof.
  induction results as [|[a | e | ] rest IH]; intros articles s.
  - simpl. rewrite app_nil_r. repeat split; lia.
  - specialize (IH (articles ++ [a]) (WebScraper.incr_successful s)).
    cbn zeta in IH. destruct IH as (H1 & H2 & H3 & H4 & H5 & H6 & H7).
    cbn [WebScraper.aggregate WebScraper.collected List.length].
    rewrite H1, H2, H3, H4, H5, H6, H7, <- app_assoc, !Nat2Z.inj_succ.
    cbn [WebScraper.incr_successful total_items successful_items failed_items
         total_time items_per_second status app].
    repeat split; lia.
  - specialize (IH articles (WebScraper.incr_failed s)).
    cbn zeta in IH. destruct IH as (H1 & H2 & H3 & H4 & H5 & H6 & H7).
    cbn [WebScraper.aggregate WebScraper.collected List.length].
    rewrite H1, H2, H3, H4, H5, H6, H7, !Nat2Z.inj_succ.
    cbn [WebScraper.incr_failed total_items successful_items failed_items
         total_time items_per_second status].
    repeat split; lia.
  - specialize (IH articles (WebScraper.incr_failed s)).
    cbn zeta in IH. destruct IH as (H1 & H2 & H3 & H4 & H5 & H6 & H7).
    cbn [WebScraper.aggregate WebScraper.collected List.length].
    rewrite H1, H2, H3, H4, H5, H6, H7, !Nat2Z.inj_succ.
    cbn [WebScraper.incr_failed total_items successful_items failed_items
         total_time items_per_second status].
    repeat split; lia.
Qed.

(** The guard of line 150 keeps the division from raising. *)
Lemma throughput_ok (n : Z) (e : Q) :
  exists rate, WebScraper.throughput n e = Ok rate /\
    ((0 < e)%Q -> rate = (inject_Z n / e)%Q) /\
    ((e <= 0)%Q -> rate = 0%Q).
Proof.
  unfold WebScraper.throughput, truediv.
  destruct (Qlt_le_dec 0 e) as [Hpos | Hle].
  - destruct (Qeq_bool e 0) eqn:E.
    + apply Qeq_bool_iff in E. lra.
    + eexists. split; [reflexivity|]. split; [reflexivity | lra].
  - exists 0%Q. split; [reflexivity|]. split; [lra | reflexivity].
Qed.

Lemma stats_eta (s : ScraperStats) :
  s = {| total_items := total_items s;
         successful_items := successful_items s;
         failed_items := failed_items s;
         total_time := total_time s;
         items_per_second := items_per_second s;
         status := status s |}.
Proof. destruct s; reflexivity. Qed.

Lemma gather_run_tasks_length (parse : string -> result WebScraper.Soup)
    (utcnow : string) (self : WebScraper.t)
    (net : nat -> string -> Z -> WebScraper.attempt_outcome)
    (urls : list string) :
  List.length (WebScraper.gather
                 (WebScraper.run_tasks parse utcnow self net urls))
  = List.length urls.
Proof.
  unfold WebScraper.gather, WebScraper.run_tasks. rewrite length_map.
  generalize 0%nat as i.
  induction urls as [|u urls IH]; intros i; [reflexivity|].
  simpl. rewrite IH. reflexivity.
Qed.

Section ScrapeArticles.

Variable parse : string -> result WebScraper.Soup.
Variable utcnow : string.
Variable self : WebScraper.t.
Variable net : nat -> string -> Z -> WebScraper.attempt_outcome.
Variables start_time end_time : Q.
Variable urls : list string.

Let tasks := WebScraper.run_tasks parse utcnow self net urls.
Let records := WebScraper.collected (WebScraper.gather tasks).

(** What a call computes: it never raises, returns the articles of the
    gathered results, and adds their number and the number of the other
    results to the two counters it found. *)
Lemma scrape_articles_spec :
  exists rate,
    WebScraper.throughput
      (successful_items (WebScraper.stats self)
       + Z.of_nat (List.length records)) (end_time - start_time) = Ok rate /\
    WebScraper.scrape_articles parse utcnow self net start_time end_time urls =
    Ok (WebScraper.set_stats self
          {| total_items := Z.of_nat (List.length urls);
             successful_items :=
               successful_items (WebScraper.stats self)
               + Z.of_nat (List.length records);
             failed_items :=
               failed_items (WebScraper.stats self)
               + (Z.of_nat (List.length urls)
                  - Z.of_nat (List.length records));
             total_time := (end_time - start_time)%Q;
             items_per_second := rate;
             status := COMPLETED |},
        records, List.concat (map snd tasks)).
Proof.
  destruct (throughput_ok
              (successful_items (WebScraper.stats self)
               + Z.of_nat (List.length records)) (end_time - start_time))
    as (rate & Hrate & _).
  exists rate. split; [exact Hrate|].
  unfold WebScraper.scrape_articles. fold tasks.
  pose proof (aggregate_fields (WebScraper.gather tasks) []
                (WebScraper.begin_run (WebScraper.stats self) urls)) as H.
  cbn zeta in H.
  destruct (WebScraper.aggregate (WebScraper.gather tasks) []
              (WebScraper.begin_run (WebScraper.stats self) urls))
    as [articles s1].
  cbn [fst snd] in H. destruct H as (H1 & H2 & H3 & H4 & H5 & H6 & H7).
  fold records in H1, H3, H4. simpl in H1, H2, H3, H4.
  assert (Hlen : List.length (WebScraper.gather tasks) = List.length urls).
  { apply gather_run_tasks_length. }
  rewrite Hlen in H4.
  unfold WebScraper.finish_run. cbn [successful_items WebScraper.set_total_time].
  rewrite H3, Hrate. subst articles.
  unfold WebScraper.set_status, WebScraper.set_items_per_second,
    WebScraper.set_total_time. cbn [total_items successful_items failed_items
    total_time items_per_second status].
  rewrite H2, H3, H4. reflexivity.
Qed.

End ScrapeArticles.




(** C2, on the code: after a run on one failing URL, a run on the empty
    list of the same scraper ends with [failed_items = 1] and
    [total_items = 0]: the counters of lines 140-145 are never reset, while
    line 128 overwrites [total_items]. *)
Lemma second_run_breaks_sum :
  exists self,
    second_run always_timeout ["a"%string] [] = Ok (self, [], []) /\
    total_items (WebScraper.stats self) = 0 /\
    successful_items (WebScraper.stats self) = 0 /\
    failed_items (WebScraper.stats self) = 1 /\
    successful_items (WebScraper.stats self)
    + failed_items (WebScraper.stats self)
    <> total_items (WebScraper.stats self).
Proof.
  eexists. split; [vm_compute; reflexivity|]. simpl.
  repeat split; discriminate.
Qed.



(** C5, on the code: on a scraper that has already extracted one article,
    the run on the empty list that takes one second ends with
    [items_per_second = 1]: line 150 divides the count left by the earlier
    call by the time of this one. *)
Lemma second_run_empty_has_throughput :
  exists self,
    second_run always_200 ["a"%string] [] = Ok (self, [], []) /\
    total_items (WebScraper.stats self) = 0 /\
    Qred (items_per_second (WebScraper.stats self)) = 1%Q /\
    ~ (items_per_second (WebScraper.stats self) == 0)%Q.
Proof.
  eexists. split; [vm_compute; reflexivity|]. simpl.
  repeat split; discriminate.
Qed.

(** X17: on the empty list [scrape_articles] returns no article, makes no
    request, does not raise, and leaves [total_items = 0] and both counters
    as they were; [items_per_second] is [0] when no time elapsed and
    otherwise the successes counted before the call over the elapsed time,
    hence [0] when that count was zero, as on a scraper just built. *)
Theorem scrape_no_urls (parse : string -> result WebScraper.Soup)
    (utcnow : string) (self : WebScraper.t)
    (net : nat -> string -> Z -> WebScraper.attempt_outcome) (t0 t1 : Q) :
  exists self',
    WebScraper.scrape_articles parse utcnow self net t0 t1 [] =
      Ok (self', [], []) /\
    total_items (WebScraper.stats self') = 0 /\
    successful_items (WebScraper.stats self')
      = successful_items (WebScraper.stats self) /\
    failed_items (WebScraper.stats self')
      = failed_items (WebScraper.stats self) /\
    ((t1 - t0 <= 0)%Q -> items_per_second (WebScraper.stats self') = 0%Q) /\
    ((0 < t1 - t0)%Q ->
       items_per_second (WebScraper.stats self')
       = (inject_Z (successful_items (WebScraper.stats self)) / (t1 - t0))%Q) /\
    (successful_items (WebScraper.stats self) = 0 ->
       (items_per_second (WebScraper.stats self') == 0)%Q).
Proof.
  destruct (scrape_articles_spec parse utcnow self net t0 t1 [])
    as (rate & Hrate & Hrun).
  simpl in Hrate, Hrun. rewrite Z.add_0_r in Hrate.
  destruct (throughput_ok (successful_items (WebScraper.stats self))
              (t1 - t0)) as (rate' & Hrate' & Hpos & Hle).
  assert (rate' = rate) by congruence. subst rate'.
  eexists. split; [exact Hrun|]. simpl.
  repeat split; try lia; try assumption.
  intros Hzero. destruct (Qlt_le_dec 0 (t1 - t0)) as [H | H].
  - rewrite (Hpos H), Hzero. unfold Qdiv. apply Qmult_0_l.
  - rewrite (Hle H). reflexivity.
Qed.

Lemma scrape_no_urls_witness :
  exists self',
    WebScraper.scrape_articles parse_heading "t" (scraper 3) always_200
      0%Q (1 # 1000)%Q [] = Ok (self', [], []) /\
    total_items (WebScraper.stats self') = 0 /\
    (items_per_second (WebScraper.stats self') == 0)%Q.
Proof.
  destruct (scrape_no_urls parse_heading "t" (scraper 3) always_200
              0%Q (1 # 1000)%Q)
    as (self' & Hrun & Htot & _ & _ & _ & _ & Hrate).
  exists self'. split; [exact Hrun|]. split; [exact Htot|].
  apply Hrate. reflexivity.
Defined.

(** C8, on the code: the second run of a scraper on one URL that succeeds,
    after a first run on one URL that succeeded, returns one article and
    ends with [successful_items = 2], [total_items = 1] and
    [failed_items = 0]: the counters of lines 140-145 are never reset, while
    line 128 overwrites [total_items]. *)
Lemma second_run_counts_both_runs :
  exists self articles tr,
    second_run always_200 ["a"%string] ["b"%string] = Ok (self, articles, tr) /\
    List.length articles = 1%nat /\
    successful_items (WebScraper.stats self) = 2 /\
    total_items (WebScraper.stats self) = 1 /\
    failed_items (WebScraper.stats self) = 0 /\
    successful_items (WebScraper.stats self)
      <> Z.of_nat (List.length articles) /\
    failed_items (WebScraper.stats self)
      <> total_items (WebScraper.stats self)
         - successful_items (WebScraper.stats self).
Proof.
  do 3 eexists. split; [vm_compute; reflexivity|]. simpl.
  repeat split; discriminate.
Qed.

(** X18: for every list of URLs [scrape_articles] returns, with
    status [COMPLETED], [total_items = len(urls)], the elapsed time, and
    [items_per_second = successful_items / elapsed] when time elapsed and
    [0] otherwise; the counters are those found on entry plus the number of
    returned articles and the number of other results, so that on a scraper
    whose counters were zero [successful_items] is the number of articles
    and [failed_items = total_items - successful_items], also when no URL
    gave an article. *)
Theorem scrape_articles_final_stats (parse : string -> result WebScraper.Soup)
    (utcnow : string) (self : WebScraper.t)
    (net : nat -> string -> Z -> WebScraper.attempt_outcome) (t0 t1 : Q)
    (urls : list string) :
  exists self' articles tr,
    WebScraper.scrape_articles parse utcnow self net t0 t1 urls =
      Ok (self', articles, tr) /\
    let s := WebScraper.stats self in
    let s' := WebScraper.stats self' in
    status s' = COMPLETED /\
    total_items s' = Z.of_nat (List.length urls) /\
    total_time s' = (t1 - t0)%Q /\
    ((0 < t1 - t0)%Q ->
       items_per_second s' = (inject_Z (successful_items s') / (t1 - t0))%Q) /\
    ((t1 - t0 <= 0)%Q -> items_per_second s' = 0%Q) /\
    successful_items s' = successful_items s + Z.of_nat (List.length articles) /\
    failed_items s' =
      failed_items s + (total_items s' - Z.of_nat (List.length articles)) /\
    (successful_items s = 0 -> failed_items s = 0 ->
       successful_items s' = Z.of_nat (List.length articles) /\
       failed_items s' = total_items s' - successful_items s' /\
       (articles = [] ->
          successful_items s' = 0 /\ failed_items s' = total_items s')).
Proof.
  destruct (scrape_articles_spec parse utcnow self net t0 t1 urls)
    as (rate & Hrate & Hrun).
  destruct (throughput_ok
    (successful_items (WebScraper.stats self)
     + Z.of_nat (List.length (WebScraper.collected (WebScraper.gather
         (WebScraper.run_tasks parse utcnow self net urls))))) (t1 - t0))
    as (rate' & Hrate' & Hpos & Hle).
  assert (rate' = rate) by congruence. subst rate'.
  do 3 eexists. split; [exact Hrun|]. cbn zeta. simpl.
  repeat split; try assumption; try lia.
  all: match goal with
       | H : WebScraper.collected _ = [] |- _ => rewrite H; simpl; lia
       end.
Qed.

Lemma scrape_articles_final_stats_witness :
  exists self' articles tr,
    WebScraper.scrape_articles parse_heading "t" (scraper 2) always_timeout
      0%Q 5%Q ["a"; "b"]%string = Ok (self', articles, tr) /\
    status (WebScraper.stats self') = COMPLETED /\
    successful_items (WebScraper.stats self')
      = Z.of_nat (List.length articles) /\
    failed_items (WebScraper.stats self')
      = total_items (WebScraper.stats self')
        - successful_items (WebScraper.stats self') /\
    items_per_second (WebScraper.stats self')
      = (inject_Z (successful_items (WebScraper.stats self')) / (5 - 0))%Q.
Proof.
  destruct (scrape_articles_final_stats parse_heading "t" (scraper 2)
              always_timeout 0%Q 5%Q ["a"; "b"]%string)
    as (self' & articles & tr & Hrun & Hst & _ & _ & Hrate & _ & _ & _ & Hfresh).
  exists self', articles, tr. split; [exact Hrun|]. split; [exact Hst|].
  destruct (Hfresh eq_refl eq_refl) as (Hs & Hf & _).
  split; [exact Hs|]. split; [exact Hf|].
  apply Hrate. reflexivity.
Defined.

(** ** The status and the frame of a run *)




(** C10: the first two statements of [scrape_articles] write [status] and
    [total_items] and leave the four other fields; no assignment of the
    source lowers a counter; and of two calls in a row on one scraper the
    second ends with the counters of the first plus its own counts, and with
    [total_items] the length of its own list. *)
Theorem second_call_accumulates :
  (forall s urls,
     WebScraper.begin_run s urls =
       {| total_items := Z.of_nat (List.length urls);
          successful_items := successful_items s;
          failed_items := failed_items s;
          total_time := total_time s;
          items_per_second := items_per_second s;
          status := RUNNING |}) /\
  (forall s s', WebScraper.stats_write s s' ->
     successful_items s <= successful_items s' /\
     failed_items s <= failed_items s') /\
  (forall parse utcnow self net1 net2 t0 t1 t2 t3 urls1 urls2,
     exists self1 articles1 tr1 self2 articles2 tr2,
       WebScraper.scrape_articles parse utcnow self net1 t0 t1 urls1 =
         Ok (self1, articles1, tr1) /\
       WebScraper.scrape_articles parse utcnow self1 net2 t2 t3 urls2 =
         Ok (self2, articles2, tr2) /\
       successful_items (WebScraper.stats self2) =
         successful_items (WebScraper.stats self)
         + Z.of_nat (List.length articles1)
         + Z.of_nat (List.length articles2) /\
       failed_items (WebScraper.stats self2) =
         failed_items (WebScraper.stats self)
         + (Z.of_nat (List.length urls1) - Z.of_nat (List.length articles1))
         + (Z.of_nat (List.length urls2) - Z.of_nat (List.length articles2)) /\
       total_items (WebScraper.stats self2) = Z.of_nat (List.length urls2)).
Proof.
  split; [reflexivity|]. split.
  - intros s s' H. destruct H; simpl; lia.
  - intros parse utcnow self net1 net2 t0 t1 t2 t3 urls1 urls2.
    destruct (scrape_articles_spec parse utcnow self net1 t0 t1 urls1)
      as (rate1 & _ & Hrun1).
    eexists. eexists. eexists.
    match type of Hrun1 with _ = Ok (?x, _, _) =>
      destruct (scrape_articles_spec parse utcnow x net2 t2 t3 urls2)
        as (rate2 & _ & Hrun2)
    end.
    do 3 eexists. split; [exact Hrun1|]. split; [exact Hrun2|].
    simpl. repeat split; lia.
Qed.

Lemma second_call_accumulates_witness :
  successful_items (WebScraper.stats (scraper 1))
    <= successful_items (WebScraper.incr_successful
                           (WebScraper.stats (scraper 1))) /\
  failed_items (WebScraper.stats (scraper 1))
    <= failed_items (WebScraper.incr_successful
                       (WebScraper.stats (scraper 1))).
Proof.
  apply (proj1 (proj2 second_call_accumulates)).
  apply WebScraper.write_successful.
Defined.

(** * Further properties of the code *)

(** ** fetch_url, whatever the network answers *)

Lemma handle_return (o : WebScraper.attempt_outcome) (body : string) :
  WebScraper.handle o = WebScraper.Return body ->
  o = WebScraper.Response 200 body.
Proof.
  unfold WebScraper.handle.
  destruct o as [status b | [ | | msg | msg]]; try discriminate.
  destruct (Z.eqb_spec status 200) as [-> | _]; [|discriminate].
  intros H. injection H as ->. reflexivity.
Qed.

Lemma handle_propagate (o : WebScraper.attempt_outcome) (e : exn) :
  WebScraper.handle o = WebScraper.Propagate e ->
  o = WebScraper.Failed e /\ e <> TimeoutExn /\
  (forall msg, e <> ClientExn msg).
Proof.
  unfold WebScraper.handle.
  destruct o as [status b | [ | | msg | msg]]; try discriminate.
  - destruct (status =? 200); discriminate.
  - intros H. injection H as <-. repeat split; discriminate.
  - intros H. injection H as <-. repeat split; discriminate.
Qed.

(** The three ways the loop ends: out of attempts, on a 200 response, or on
    an exception that no clause catches; in each case after [k] failures. *)
Lemma fetch_loop_cases (m : Z) (u : string)
    (net : Z -> WebScraper.attempt_outcome) (fuel : nat) :
  forall a : Z,
  exists k : nat,
    (k <= fuel)%nat /\
    (forall i, a <= i < a + Z.of_nat k ->
               WebScraper.retryable (net i) = true) /\
    ((k = fuel /\
      WebScraper.fetch_loop m u net fuel a =
        (Ok None, WebScraper.failed_trace m u k a))
     \/ ((k < fuel)%nat /\ exists body,
          net (a + Z.of_nat k) = WebScraper.Response 200 body /\
          WebScraper.fetch_loop m u net fuel a =
            (Ok (Some body),
             WebScraper.failed_trace m u k a
               ++ [WebScraper.Acquire; WebScraper.Get u]))
     \/ ((k < fuel)%nat /\ exists e,
          net (a + Z.of_nat k) = WebScraper.Failed e /\
          e <> TimeoutExn /\ (forall msg, e <> ClientExn msg) /\
          WebScraper.fetch_loop m u net fuel a =
            (Raise e,
             WebScraper.failed_trace m u k a
               ++ [WebScraper.Acquire; WebScraper.Get u]))).
Proof.
  induction fuel as [|fuel IH]; intros a.
  - exists 0%nat. split; [lia|]. split; [intros i Hi; lia|].
    left. split; reflexivity.
  - cbn [WebScraper.fetch_loop].
    destruct (WebScraper.handle (net a)) as [body | e | ] eqn:Hh.
    + exists 0%nat. split; [lia|]. split; [intros i Hi; lia|].
      right. left. split; [lia|]. exists body. rewrite Z.add_0_r.
      split; [apply handle_return; exact Hh | reflexivity].
    + exists 0%nat. split; [lia|]. split; [intros i Hi; lia|].
      right. right. split; [lia|]. exists e. rewrite Z.add_0_r.
      destruct (handle_propagate _ _ Hh) as (H1 & H2 & H3).
      repeat split; assumption.
    + destruct (IH (a + 1)) as (k & Hk & Hfail & Hend).
      exists (S k). split; [lia|]. split.
      * intros i Hi. destruct (Z.eq_dec i a) as [-> | Hne].
        -- unfold WebScraper.retryable. rewrite Hh. reflexivity.
        -- apply Hfail. lia.
      * replace (a + Z.of_nat (S k)) with (a + 1 + Z.of_nat k) by lia.
        cbn [WebScraper.failed_trace].
        destruct Hend as [(-> & E) | [(Hlt & body & Hn & E)
                                     | (Hlt & e & Hn & H2 & H3 & E)]];
          rewrite E.
        -- left. split; reflexivity.
        -- right. left. split; [lia|]. exists body. split; [exact Hn|].
           rewrite <- !app_assoc. reflexivity.
        -- right. right. split; [lia|]. exists e.
           repeat split; try assumption.
           rewrite <- !app_assoc. reflexivity.
Qed.

Lemma total_sleep_app (tr1 tr2 : list WebScraper.effect) :
  WebScraper.total_sleep (tr1 ++ tr2) =
  WebScraper.total_sleep tr1 + WebScraper.total_sleep tr2.
Proof.
  unfold WebScraper.total_sleep. rewrite sleeps_app.
  induction (WebScraper.sleeps tr1) as [|d l IH]; simpl; lia.
Qed.

(** Before the last attempt every failure is followed by its back-off. *)
Lemma sleeps_failed_trace_inner (m : Z) (u : string) (k : nat) :
  forall a, a + Z.of_nat k < m ->
  WebScraper.sleeps (WebScraper.failed_trace m u k a) =
  map (Z.pow 2) (WebScraper.Zseq a k).
Proof.
  induction k as [|k IH]; intros a Ham; [reflexivity|].
  cbn [WebScraper.failed_trace]. rewrite !sleeps_app.
  rewrite IH by lia. unfold WebScraper.backoff.
  destruct (Z.ltb_spec a (m - 1)); [reflexivity | lia].
Qed.

Lemma total_sleep_failed_inner (m : Z) (u : string) (k : nat) :
  Z.of_nat k < m ->
  WebScraper.total_sleep (WebScraper.failed_trace m u k 0) =
  WebScraper.sum_pow2 k.
Proof.
  intros Hk. unfold WebScraper.total_sleep.
  rewrite sleeps_failed_trace_inner, sum_Zseq_pow2, sum_pow2_closed by lia.
  simpl. lia.
Qed.

Lemma sum_pow2_mono (j k : nat) :
  (j <= k)%nat -> 0 <= WebScraper.sum_pow2 j <= WebScraper.sum_pow2 k.
Proof.
  intros Hjk. rewrite !sum_pow2_closed.
  assert (0 < 2 ^ Z.of_nat j) by (apply Z.pow_pos_nonneg; lia).
  assert (2 ^ Z.of_nat j <= 2 ^ Z.of_nat k)
    by (apply Z.pow_le_mono_r; lia).
  lia.
Qed.

Lemma paced_app (tr1 tr2 : list WebScraper.effect) :
  WebScraper.paced tr1 = true -> WebScraper.paced tr2 = true ->
  WebScraper.paced (tr1 ++ tr2) = true.
Proof.
  intros H1 H2. remember (List.length tr1) as n eqn:Hn.
  assert (Hle : (List.length tr1 <= n)%nat) by lia. clear Hn.
  revert tr1 H1 Hle. induction n as [|n IH]; intros tr1 H1 Hle.
  - destruct tr1; [exact H2 | simpl in Hle; lia].
  - destruct tr1 as [|[ | v | d] tr1]; simpl in *.
    + exact H2.
    + destruct tr1 as [|[ | v | d] tr1]; try discriminate.
      simpl in *. apply IH; [assumption | lia].
    + discriminate.
    + apply IH; [assumption | lia].
Qed.

Lemma paced_failed_trace (m : Z) (u : string) (k : nat) :
  forall a, WebScraper.paced (WebScraper.failed_trace m u k a) = true.
Proof.
  induction k as [|k IH]; intros a; [reflexivity|].
  cbn [WebScraper.failed_trace]. unfold WebScraper.backoff.
  destruct (a <? m - 1); simpl; apply IH.
Qed.

Lemma fetch_url_effort (self : WebScraper.t)
    (net : Z -> WebScraper.attempt_outcome) (u : string) :
  let m := WebScraper.max_retries self in
  let tr := snd (WebScraper.fetch_url self net u) in
  0 <= WebScraper.attempts tr <= Z.max 0 m /\
  0 <= WebScraper.total_sleep tr <= WebScraper.sum_pow2 (Z.to_nat (m - 1)).
Proof.
  intros m tr. unfold tr, WebScraper.fetch_url. fold m.
  destruct (fetch_loop_cases m u net (Z.to_nat m) 0)
    as (k & Hk & _ & [(Hkm & E) | [(Hlt & body & _ & E)
                                  | (Hlt & e & _ & _ & _ & E)]]);
    rewrite E; cbn [snd].
  - rewrite attempts_failed_trace. split; [lia|].
    destruct (Z.le_gt_cases m 0) as [Hm | Hm].
    + replace k with 0%nat by lia. replace (Z.to_nat (m - 1)) with 0%nat by lia.
      cbn. lia.
    + unfold WebScraper.total_sleep.
      rewrite sleeps_failed_trace, sum_Zseq_pow2 by lia.
      rewrite sum_pow2_closed.
      replace (Z.to_nat (m - 1)) with (Nat.pred k) by lia.
      assert (0 < 2 ^ Z.of_nat (Nat.pred k)) by (apply Z.pow_pos_nonneg; lia).
      simpl. lia.
  - rewrite attempts_app, attempts_failed_trace, total_sleep_app,
      total_sleep_failed_inner by lia.
    change (WebScraper.attempts [WebScraper.Acquire; WebScraper.Get u]) with 1.
    change (WebScraper.total_sleep [WebScraper.Acquire; WebScraper.Get u])
      with 0.
    pose proof (sum_pow2_mono k (Z.to_nat (m - 1)) ltac:(lia)). lia.
  - rewrite attempts_app, attempts_failed_trace, total_sleep_app,
      total_sleep_failed_inner by lia.
    change (WebScraper.attempts [WebScraper.Acquire; WebScraper.Get u]) with 1.
    change (WebScraper.total_sleep [WebScraper.Acquire; WebScraper.Get u])
      with 0.
    pose proof (sum_pow2_mono k (Z.to_nat (m - 1)) ltac:(lia)). lia.
Qed.

(** X1: whatever the network answers, [fetch_url] makes at most
    [max_retries] requests (none for [max_retries <= 0]) and sleeps in total
    at most [sum(2^i for i in 0..max_retries-2)]. *)
Theorem fetch_url_bounds (self : WebScraper.t)
    (net : Z -> WebScraper.attempt_outcome) (u : string) :
  let m := WebScraper.max_retries self in
  let tr := snd (WebScraper.fetch_url self net u) in
  0 <= WebScraper.attempts tr <= Z.max 0 m /\
  0 <= WebScraper.total_sleep tr <= WebScraper.sum_pow2 (Z.to_nat (m - 1)).
Proof.
  exact (fetch_url_effort self net u).
Qed.

(** X2: with [max_retries <= 0] the loop body never runs: [fetch_url]
    returns [None] without calling the limiter or the network. *)
Theorem fetch_url_no_attempt (self : WebScraper.t)
    (net : Z -> WebScraper.attempt_outcome) (u : string) :
  WebScraper.max_retries self <= 0 ->
  WebScraper.fetch_url self net u = (Ok None, []).
Proof.
  intros Hm. unfold WebScraper.fetch_url.
  replace (Z.to_nat (WebScraper.max_retries self)) with 0%nat by lia.
  reflexivity.
Qed.

Lemma fetch_url_no_attempt_witness :
  WebScraper.fetch_url (scraper (-2)) (always_200 0 "u") "u" = (Ok None, []).
Proof.
  apply fetch_url_no_attempt. simpl. lia.
Defined.

(** X3: a body returned by [fetch_url] is the body of the first response
    with status 200: every earlier attempt failed and was retried, the
    request that got it is the last effect, and the sleeps before it add up
    to [sum(2^i for i in 0..a-1)]. *)
Theorem fetch_url_success (self : WebScraper.t)
    (net : Z -> WebScraper.attempt_outcome) (u body : string) :
  fst (WebScraper.fetch_url self net u) = Ok (Some body) ->
  exists a : Z,
    0 <= a < WebScraper.max_retries self /\
    net a = WebScraper.Response 200 body /\
    (forall i, 0 <= i < a -> WebScraper.retryable (net i) = true) /\
    snd (WebScraper.fetch_url self net u) =
      WebScraper.failed_trace (WebScraper.max_retries self) u (Z.to_nat a) 0
        ++ [WebScraper.Acquire; WebScraper.Get u] /\
    WebScraper.attempts (snd (WebScraper.fetch_url self net u)) = a + 1 /\
    WebScraper.total_sleep (snd (WebScraper.fetch_url self net u)) =
      WebScraper.sum_pow2 (Z.to_nat a).
Proof.
  unfold WebScraper.fetch_url.
  set (m := WebScraper.max_retries self).
  destruct (fetch_loop_cases m u net (Z.to_nat m) 0)
    as (k & Hk & Hfail & [(Hkm & E) | [(Hlt & b & Hn & E)
                                      | (Hlt & e & _ & _ & _ & E)]]);
    rewrite E; cbn [fst snd]; intros H; try discriminate.
  injection H as ->. exists (Z.of_nat k). rewrite Nat2Z.id.
  split; [lia|]. split; [exact Hn|]. split; [exact Hfail|].
  split; [reflexivity|].
  rewrite attempts_app, attempts_failed_trace, total_sleep_app,
    total_sleep_failed_inner by lia.
  split; [reflexivity | cbn; lia].
Qed.

Lemma fetch_url_success_witness :
  exists a : Z,
    0 <= a < 3 /\
    (if a =? 2 then WebScraper.Response 200 "page"
     else WebScraper.Failed TimeoutExn) = WebScraper.Response 200 "page" /\
    WebScraper.total_sleep
      (snd (WebScraper.fetch_url (scraper 3)
              (fun i => if i =? 2 then WebScraper.Response 200 "page"
                        else WebScraper.Failed TimeoutExn) "u")) =
      WebScraper.sum_pow2 (Z.to_nat a).
Proof.
  destruct (fetch_url_success (scraper 3)
              (fun i => if i =? 2 then WebScraper.Response 200 "page"
                        else WebScraper.Failed TimeoutExn) "u" "page"
              eq_refl) as (a & Ha & Hn & _ & _ & _ & Hs).
  exists a. split; [exact Ha|]. split; [exact Hn | exact Hs].
Defined.

(** X4: an exception leaves [fetch_url] only if it is neither a timeout nor
    a client error; it is the exception of the first attempt that did not
    end in a retryable failure, and it leaves at once: the request that
    raised it is the last effect, with no back-off and no further attempt. *)
Theorem fetch_url_raise (self : WebScraper.t)
    (net : Z -> WebScraper.attempt_outcome) (u : string) (e : exn) :
  fst (WebScraper.fetch_url self net u) = Raise e ->
  e <> TimeoutExn /\ (forall msg, e <> ClientExn msg) /\
  exists a : Z,
    0 <= a < WebScraper.max_retries self /\
    net a = WebScraper.Failed e /\
    (forall i, 0 <= i < a -> WebScraper.retryable (net i) = true) /\
    snd (WebScraper.fetch_url self net u) =
      WebScraper.failed_trace (WebScraper.max_retries self) u (Z.to_nat a) 0
        ++ [WebScraper.Acquire; WebScraper.Get u] /\
    WebScraper.attempts (snd (WebScraper.fetch_url self net u)) = a + 1.
Proof.
  unfold WebScraper.fetch_url.
  set (m := WebScraper.max_retries self).
  destruct (fetch_loop_cases m u net (Z.to_nat m) 0)
    as (k & Hk & Hfail & [(Hkm & E) | [(Hlt & b & Hn & E)
                                      | (Hlt & e' & Hn & H2 & H3 & E)]]);
    rewrite E; cbn [fst snd]; intros H; try discriminate.
  injection H as ->. split; [exact H2|]. split; [exact H3|].
  exists (Z.of_nat k). rewrite Nat2Z.id.
  split; [lia|]. split; [exact Hn|]. split; [exact Hfail|].
  split; [reflexivity|].
  rewrite attempts_app, attempts_failed_trace. reflexivity.
Qed.

Lemma fetch_url_raise_witness :
  OtherExn "decode" <> TimeoutExn /\
  exists a : Z,
    0 <= a < 3 /\
    WebScraper.attempts
      (snd (WebScraper.fetch_url (scraper 3)
              (fun i => if i =? 1 then WebScraper.Failed (OtherExn "decode")
                        else WebScraper.Response 500 "") "u")) = a + 1.
Proof.
  destruct (fetch_url_raise (scraper 3)
              (fun i => if i =? 1 then WebScraper.Failed (OtherExn "decode")
                        else WebScraper.Response 500 "") "u"
              (OtherExn "decode") eq_refl)
    as (H1 & _ & a & Ha & _ & _ & _ & Hatt).
  split; [exact H1|]. exists a. split; [exact Ha | exact Hatt].
Defined.

Lemma fetch_url_trace_paced (self : WebScraper.t)
    (net : Z -> WebScraper.attempt_outcome) (u : string) :
  WebScraper.paced (snd (WebScraper.fetch_url self net u)) = true.
Proof.
  unfold WebScraper.fetch_url.
  set (m := WebScraper.max_retries self).
  destruct (fetch_loop_cases m u net (Z.to_nat m) 0)
    as (k & _ & _ & [(_ & E) | [(_ & b & _ & E) | (_ & e & _ & _ & _ & E)]]);
    rewrite E; cbn [snd];
    [ apply paced_failed_trace
    | apply paced_app; [apply paced_failed_trace | reflexivity] .. ].
Qed.

(** X5: in every trace of [fetch_url] each request comes right after a call
    of the rate limiter, and the trace holds nothing else but sleeps. *)
Theorem fetch_url_paced (self : WebScraper.t)
    (net : Z -> WebScraper.attempt_outcome) (u : string) :
  WebScraper.paced (snd (WebScraper.fetch_url self net u)) = true.
Proof.
  exact (fetch_url_trace_paced self net u).
Qed.

(** ** _scrape_single_url *)

Lemma extract_fields (parse : string -> result WebScraper.Soup)
    (utcnow html u : string) (a : Article) :
  WebScraper.extract parse utcnow html u = Ok a ->
  url a = u /\ scraped_at a = utcnow.
Proof.
  unfold WebScraper.extract. destruct (parse html); [|discriminate].
  intros H. injection H as <-. split; reflexivity.
Qed.

Lemma scrape_single_url_url (parse : string -> result WebScraper.Soup)
    (utcnow : string) (self : WebScraper.t)
    (net : Z -> WebScraper.attempt_outcome) (u : string) (a : Article) :
  fst (WebScraper._scrape_single_url parse utcnow self net u) = Some a ->
  url a = u.
Proof.
  unfold WebScraper._scrape_single_url.
  destruct (WebScraper.fetch_url self net u) as [[[html|]|e] tr];
    try discriminate.
  destruct (html =? "")%string; [discriminate|].
  destruct (WebScraper.extract parse utcnow html u) as [a'|e] eqn:E;
    [|discriminate].
  intros H. injection H as ->. eapply extract_fields. exact E.
Qed.

Lemma scrape_single_url_effects (parse : string -> result WebScraper.Soup)
    (utcnow : string) (self : WebScraper.t)
    (net : Z -> WebScraper.attempt_outcome) (u : string) :
  snd (WebScraper._scrape_single_url parse utcnow self net u) =
  snd (WebScraper.fetch_url self net u).
Proof.
  unfold WebScraper._scrape_single_url.
  destruct (WebScraper.fetch_url self net u) as [[[html|]|e] tr];
    cbn [snd]; try reflexivity.
  destruct (html =? "")%string; [reflexivity|].
  destruct (WebScraper.extract parse utcnow html u); reflexivity.
Qed.

(** X6: [_scrape_single_url] gives an article exactly when [fetch_url]
    returned a non-empty body from which the extraction succeeds; the
    article then carries the requested URL and the current time.  Its effects
    are those of [fetch_url]. *)
Theorem scrape_single_url_article (parse : string -> result WebScraper.Soup)
    (utcnow : string) (self : WebScraper.t)
    (net : Z -> WebScraper.attempt_outcome) (u : string) :
  (forall a,
     fst (WebScraper._scrape_single_url parse utcnow self net u) = Some a <->
     exists html,
       fst (WebScraper.fetch_url self net u) = Ok (Some html) /\
       html <> ""%string /\
       WebScraper.extract parse utcnow html u = Ok a) /\
  (forall a,
     fst (WebScraper._scrape_single_url parse utcnow self net u) = Some a ->
     url a = u /\ scraped_at a = utcnow) /\
  snd (WebScraper._scrape_single_url parse utcnow self net u) =
    snd (WebScraper.fetch_url self net u).
Proof.
  assert (Hiff : forall a,
     fst (WebScraper._scrape_single_url parse utcnow self net u) = Some a <->
     exists html,
       fst (WebScraper.fetch_url self net u) = Ok (Some html) /\
       html <> ""%string /\
       WebScraper.extract parse utcnow html u = Ok a).
  { intros a. unfold WebScraper._scrape_single_url.
    destruct (WebScraper.fetch_url self net u) as [[[html|]|e] tr];
      cbn [fst].
    - destruct (String.eqb_spec html "") as [-> | Hne]; cbn [fst].
      + split; [discriminate|]. intros (h & Hh & Hn & _).
        injection Hh as <-. contradiction.
      + destruct (WebScraper.extract parse utcnow html u) as [a'|e] eqn:E;
          cbn [fst].
        * split.
          -- intros H. injection H as ->. exists html. auto.
          -- intros (h & Hh & _ & Hx). injection Hh as <-. congruence.
        * split; [discriminate|]. intros (h & Hh & _ & Hx).
          injection Hh as <-. congruence.
    - split; [discriminate|]. intros (h & Hh & _). discriminate.
    - split; [discriminate|]. intros (h & Hh & _). discriminate. }
  split; [exact Hiff|]. split.
  - intros a Ha. apply Hiff in Ha. destruct Ha as (html & _ & _ & Hx).
    eapply extract_fields. exact Hx.
  - unfold WebScraper._scrape_single_url.
    destruct (WebScraper.fetch_url self net u) as [[[html|]|e] tr];
      cbn [snd]; try reflexivity.
    destruct (html =? "")%string; [reflexivity|].
    destruct (WebScraper.extract parse utcnow html u); reflexivity.
Qed.

Lemma scrape_single_url_article_witness :
  fst (WebScraper._scrape_single_url parse_heading "t" (scraper 3)
         (always_200 0 "u") "u") =
  Some {| title := "Example"; url := "u"; author := None;
          published_date := None; summary := None; scraped_at := "t" |}.
Proof.
  apply (proj1 (scrape_single_url_article parse_heading "t" (scraper 3)
                  (always_200 0 "u") "u")).
  exists "<h1>Example</h1>"%string.
  split; [reflexivity|]. split; [discriminate | reflexivity].
Defined.

(** X7: a 200 response with an empty body is not retried and gives no
    article: the URL counts as failed after one request. *)
Theorem scrape_single_url_empty_body (parse : string -> result WebScraper.Soup)
    (utcnow : string) (self : WebScraper.t)
    (net : Z -> WebScraper.attempt_outcome) (u : string) :
  1 <= WebScraper.max_retries self ->
  net 0 = WebScraper.Response 200 "" ->
  WebScraper._scrape_single_url parse utcnow self net u =
    (None, [WebScraper.Acquire; WebScraper.Get u]).
Proof.
  intros Hm Hnet. unfold WebScraper._scrape_single_url, WebScraper.fetch_url.
  destruct (Z.to_nat (WebScraper.max_retries self)) as [|fuel] eqn:E; [lia|].
  cbn [WebScraper.fetch_loop]. rewrite Hnet. reflexivity.
Qed.

Lemma scrape_single_url_empty_body_witness :
  WebScraper._scrape_single_url parse_heading "t" (scraper 3)
    (fun _ => WebScraper.Response 200 "") "u" =
  (None, [WebScraper.Acquire; WebScraper.Get "u"]).
Proof.
  apply scrape_single_url_empty_body; [simpl; lia | reflexivity].
Defined.

(** ** scrape_articles *)

Lemma collected_urls (parse : string -> result WebScraper.Soup)
    (utcnow : string) (self : WebScraper.t)
    (net : nat -> string -> Z -> WebScraper.attempt_outcome)
    (urls : list string) :
  forall i : nat,
  map url (WebScraper.collected (WebScraper.gather
             (WebScraper.run_tasks_from parse utcnow self net i urls))) =
  map snd
    (filter (fun p => WebScraper.succeeds parse utcnow self
                        (net (fst p) (snd p)) (snd p))
       (WebScraper.enumerate_from i urls)).
Proof.
  induction urls as [|u urls IH]; intros i; [reflexivity|].
  unfold WebScraper.gather in *.
  cbn [WebScraper.run_tasks_from WebScraper.enumerate_from map filter fst snd].
  unfold WebScraper.succeeds at 1.
  destruct (fst (WebScraper._scrape_single_url parse utcnow self (net i u) u))
    as [a|] eqn:E; cbn [WebScraper.of_task WebScraper.collected map snd].
  - rewrite IH. f_equal. eapply scrape_single_url_url. exact E.
  - apply IH.
Qed.

Lemma enumerate_from_snd (urls : list string) :
  forall i, map snd (WebScraper.enumerate_from i urls) = urls.
Proof.
  induction urls as [|u urls IH]; intros i; [reflexivity|].
  simpl. rewrite IH. reflexivity.
Qed.

Lemma enumerate_from_In (urls : list string) :
  forall (i j : nat) (u : string),
  In (j, u) (WebScraper.enumerate_from i urls) ->
  (i <= j)%nat /\ nth_error urls (j - i) = Some u.
Proof.
  induction urls as [|v urls IH]; intros i j u Hin; [contradiction|].
  destruct Hin as [Heq | Hin].
  - injection Heq as <- <-. rewrite Nat.sub_diag. split; [lia | reflexivity].
  - destruct (IH (S i) j u Hin) as [Hle Hnth]. split; [lia|].
    replace (j - i)%nat with (S (j - S i)) by lia. exact Hnth.
Qed.

Lemma run_tasks_effort (parse : string -> result WebScraper.Soup)
    (utcnow : string) (self : WebScraper.t)
    (net : nat -> string -> Z -> WebScraper.attempt_outcome)
    (urls : list string) :
  let tr := List.concat
              (map snd (WebScraper.run_tasks parse utcnow self net urls)) in
  let m := WebScraper.max_retries self in
  0 <= WebScraper.attempts tr <= Z.of_nat (List.length urls) * Z.max 0 m /\
  0 <= WebScraper.total_sleep tr
    <= Z.of_nat (List.length urls) * WebScraper.sum_pow2 (Z.to_nat (m - 1)) /\
  WebScraper.paced tr = true.
Proof.
  cbn zeta. unfold WebScraper.run_tasks. generalize 0%nat as i.
  induction urls as [|u urls IH]; intros i.
  - cbn. repeat split; lia.
  - cbn [WebScraper.run_tasks_from map List.concat].
    rewrite attempts_app, total_sleep_app.
    cbn [List.length].
    rewrite scrape_single_url_effects.
    pose proof (fetch_url_effort self (net i u) u) as Hb. cbn zeta in Hb.
    pose proof (fetch_url_trace_paced self (net i u) u) as Hp.
    destruct (IH (S i)) as (IH1 & IH2 & IH3).
    rewrite Nat2Z.inj_succ.
    split; [lia|]. split; [lia|]. apply paced_app; assumption.
Qed.

(** X8: the articles come back in the order of [urls], one for each
    position whose task ended in an article and carrying the URL of that
    position; there are never more articles than URLs.  Tasks on equal URLs
    are independent of each other. *)
Theorem scrape_articles_order (parse : string -> result WebScraper.Soup)
    (utcnow : string) (self : WebScraper.t)
    (net : nat -> string -> Z -> WebScraper.attempt_outcome) (t0 t1 : Q)
    (urls : list string) :
  exists self' articles tr,
    WebScraper.scrape_articles parse utcnow self net t0 t1 urls =
      Ok (self', articles, tr) /\
    map url articles =
      map snd (WebScraper.successes parse utcnow self net urls) /\
    (List.length articles <= List.length urls)%nat.
Proof.
  destruct (scrape_articles_spec parse utcnow self net t0 t1 urls)
    as (rate & _ & Hrun).
  do 3 eexists. split; [exact Hrun|].
  pose proof (collected_urls parse utcnow self net urls 0) as Hurls.
  fold (WebScraper.run_tasks parse utcnow self net urls) in Hurls.
  fold (WebScraper.successes parse utcnow self net urls) in Hurls.
  split; [exact Hurls|].
  rewrite <- (length_map url), Hurls, length_map.
  unfold WebScraper.successes.
  rewrite <- (enumerate_from_snd urls 0) at 2. rewrite length_map.
  apply filter_length_le.
Qed.

(** Of two tasks on the same URL one may end in an article and the other
    not. *)
Lemma scrape_articles_repeated_url :
  exists self' articles tr,
    WebScraper.scrape_articles parse_heading "t" (scraper 1) first_only
      0%Q 1%Q ["a"; "a"]%string = Ok (self', articles, tr) /\
    map url articles = ["a"]%string /\
    successful_items (WebScraper.stats self') = 1 /\
    failed_items (WebScraper.stats self') = 1.
Proof.
  do 3 eexists. split; [vm_compute; reflexivity|].
  repeat split.
Qed.

(** X9: one call of [scrape_articles] makes at most
    [len(urls) * max_retries] requests, each right after a call of the rate
    limiter, and its tasks sleep in back-off at most
    [len(urls) * sum(2^i for i in 0..max_retries-2)] in total. *)
Theorem scrape_articles_effort (parse : string -> result WebScraper.Soup)
    (utcnow : string) (self : WebScraper.t)
    (net : nat -> string -> Z -> WebScraper.attempt_outcome) (t0 t1 : Q)
    (urls : list string) :
  exists self' articles tr,
    WebScraper.scrape_articles parse utcnow self net t0 t1 urls =
      Ok (self', articles, tr) /\
    0 <= WebScraper.attempts tr
      <= Z.of_nat (List.length urls) * Z.max 0 (WebScraper.max_retries self) /\
    0 <= WebScraper.total_sleep tr
      <= Z.of_nat (List.length urls)
         * WebScraper.sum_pow2 (Z.to_nat (WebScraper.max_retries self - 1)) /\
    WebScraper.paced tr = true.
Proof.
  destruct (scrape_articles_spec parse utcnow self net t0 t1 urls)
    as (rate & _ & Hrun).
  do 3 eexists. split; [exact Hrun|].
  apply (run_tasks_effort parse utcnow self net urls).
Qed.

(** X10: when the task of every position of [urls] ends in an article, the
    call returns one article per position, in order, and counts them all as
    successes; when none does, it returns no article and counts every
    position as failed. *)
Theorem scrape_articles_uniform (parse : string -> result WebScraper.Soup)
    (utcnow : string) (self : WebScraper.t)
    (net : nat -> string -> Z -> WebScraper.attempt_outcome) (t0 t1 : Q)
    (urls : list string) :
  exists self' articles tr,
    WebScraper.scrape_articles parse utcnow self net t0 t1 urls =
      Ok (self', articles, tr) /\
    ((forall i u, nth_error urls i = Some u ->
        WebScraper.succeeds parse utcnow self (net i u) u = true) ->
     map url articles = urls /\
     successful_items (WebScraper.stats self') =
       successful_items (WebScraper.stats self)
       + Z.of_nat (List.length urls) /\
     failed_items (WebScraper.stats self') =
       failed_items (WebScraper.stats self)) /\
    ((forall i u, nth_error urls i = Some u ->
        WebScraper.succeeds parse utcnow self (net i u) u = false) ->
     articles = [] /\
     successful_items (WebScraper.stats self') =
       successful_items (WebScraper.stats self) /\
     failed_items (WebScraper.stats self') =
       failed_items (WebScraper.stats self)
       + Z.of_nat (List.length urls)).
Proof.
  destruct (scrape_articles_spec parse utcnow self net t0 t1 urls)
    as (rate & _ & Hrun).
  do 3 eexists. split; [exact Hrun|].
  pose proof (collected_urls parse utcnow self net urls 0) as Hurls.
  fold (WebScraper.run_tasks parse utcnow self net urls) in Hurls.
  set (records := WebScraper.collected (WebScraper.gather
         (WebScraper.run_tasks parse utcnow self net urls))) in *.
  set (f := fun p : nat * string =>
              WebScraper.succeeds parse utcnow self
                (net (fst p) (snd p)) (snd p)) in *.
  cbn [WebScraper.stats WebScraper.set_stats successful_items failed_items].
  assert (Hpos : forall p, In p (WebScraper.enumerate_from 0 urls) ->
                 nth_error urls (fst p) = Some (snd p)).
  { intros [j u] Hin. destruct (enumerate_from_In urls 0 j u Hin) as [_ H].
    rewrite Nat.sub_0_r in H. exact H. }
  split; intros Hall.
  - assert (Hf : filter f (WebScraper.enumerate_from 0 urls)
                 = WebScraper.enumerate_from 0 urls).
    { apply forallb_filter_id. apply forallb_forall. intros p Hp.
      unfold f. apply Hall. apply Hpos. exact Hp. }
    rewrite Hf, enumerate_from_snd in Hurls. split; [exact Hurls|].
    assert (List.length records = List.length urls)
      by (rewrite <- Hurls; symmetry; apply length_map).
    lia.
  - assert (Hf : filter f (WebScraper.enumerate_from 0 urls) = []).
    { generalize (WebScraper.enumerate_from 0 urls), Hpos.
      intros l Hl. induction l as [|p l IH]; [reflexivity|].
      cbn [filter]. unfold f at 1.
      rewrite (Hall (fst p) (snd p)) by (apply Hl; left; reflexivity).
      apply IH. intros q Hq. apply Hl. right. exact Hq. }
    rewrite Hf in Hurls. apply map_eq_nil in Hurls. rewrite Hurls.
    split; [reflexivity|]. cbn. lia.
Qed.

Lemma scrape_articles_uniform_witness :
  exists self' articles tr,
    WebScraper.scrape_articles parse_heading "t" (scraper 3) always_200
      0%Q 1%Q ["a"; "a"]%string = Ok (self', articles, tr) /\
    map url articles = ["a"; "a"]%string /\
    successful_items (WebScraper.stats self') = 0 + 2 /\
    failed_items (WebScraper.stats self') = 0.
Proof.
  destruct (scrape_articles_uniform parse_heading "t" (scraper 3) always_200
              0%Q 1%Q ["a"; "a"]%string)
    as (self' & articles & tr & Hrun & Hall & _).
  exists self', articles, tr. split; [exact Hrun|].
  apply Hall. intros i u Hu. reflexivity.
Defined.

Lemma throughput_nonneg (n : Z) (e rate : Q) :
  0 <= n -> WebScraper.throughput n e = Ok rate -> (0 <= rate)%Q.
Proof.
  intros Hn Hrate.
  destruct (throughput_ok n e) as (rate' & Hrate' & Hpos & Hle).
  assert (rate' = rate) by congruence. subst rate'.
  destruct (Qlt_le_dec 0 e) as [H | H].
  - rewrite (Hpos H). unfold Qdiv. apply Qmult_le_0_compat.
    + unfold Qle. simpl. lia.
    + apply Qinv_le_0_compat. lra.
  - rewrite (Hle H). lra.
Qed.

(** X11: the first call on a scraper just built leaves both counters
    between [0] and [total_items], [successful_items] equal to the number of
    returned articles, and a throughput that is not negative. *)
Theorem first_run_counters (parse : string -> result WebScraper.Soup)
    (utcnow : string) (self : WebScraper.t)
    (net : nat -> string -> Z -> WebScraper.attempt_outcome) (t0 t1 : Q)
    (urls : list string) (rps : Q) (timeout max_retries : Z) :
  WebScraper.init rps timeout max_retries = Ok self ->
  exists self' articles tr,
    WebScraper.scrape_articles parse utcnow self net t0 t1 urls =
      Ok (self', articles, tr) /\
    let s' := WebScraper.get_stats self' in
    successful_items s' = Z.of_nat (List.length articles) /\
    0 <= successful_items s' <= total_items s' /\
    0 <= failed_items s' <= total_items s' /\
    (0 <= items_per_second s')%Q.
Proof.
  intros Hinit.
  assert (Hfresh : WebScraper.stats self = ScraperStats_default).
  { unfold WebScraper.init in Hinit.
    destruct (RateLimiter.init rps); [|discriminate].
    injection Hinit as <-. reflexivity. }
  destruct (scrape_articles_spec parse utcnow self net t0 t1 urls)
    as (rate & Hrate & Hrun).
  do 3 eexists. split; [exact Hrun|].
  pose proof (collected_length (WebScraper.gather
    (WebScraper.run_tasks parse utcnow self net urls))) as Hlen.
  assert (Hg : List.length (WebScraper.gather
                 (WebScraper.run_tasks parse utcnow self net urls))
               = List.length urls).
  { apply gather_run_tasks_length. }
  rewrite Hg in Hlen. rewrite Hfresh in Hrate.
  cbn zeta. unfold WebScraper.get_stats.
  cbn [WebScraper.stats WebScraper.set_stats successful_items failed_items
       total_items items_per_second].
  rewrite Hfresh. cbn [successful_items failed_items ScraperStats_default].
  split; [lia|]. split; [lia|]. split; [lia|].
  eapply throughput_nonneg; [|exact Hrate]. simpl. lia.
Qed.

Lemma first_run_counters_witness :
  exists self' articles tr,
    WebScraper.scrape_articles parse_heading "t" (scraper 3) always_timeout
      0%Q 7%Q ["a"; "b"]%string = Ok (self', articles, tr) /\
    0 <= failed_items (WebScraper.get_stats self')
      <= total_items (WebScraper.get_stats self').
Proof.
  destruct (first_run_counters parse_heading "t" (scraper 3) always_timeout
              0%Q 7%Q ["a"; "b"]%string 2%Q 10 3 eq_refl)
    as (self' & articles & tr & Hrun & _ & _ & Hf & _).
  exists self', articles, tr. split; [exact Hrun | exact Hf].
Defined.

(** ** main *)

(** X12: whatever the three sites answer, the scraping part of [main()]
    (lines 218-241: the constructor, the call of [scrape_articles] and
    [get_stats]) does not raise; it ends with status [COMPLETED],
    [total_items = 3], counters that add up to 3 with [successful_items] the
    number of articles, after at most 9 requests and at most 9 seconds of
    back-off over its tasks. *)
Theorem main_completes (parse : string -> result WebScraper.Soup)
    (utcnow : string) (net : nat -> string -> Z -> WebScraper.attempt_outcome)
    (t0 t1 : Q) :
  exists articles s tr,
    main parse utcnow net t0 t1 = Ok (articles, s, tr) /\
    status s = COMPLETED /\
    total_items s = 3 /\
    successful_items s + failed_items s = 3 /\
    successful_items s = Z.of_nat (List.length articles) /\
    0 <= WebScraper.attempts tr <= 9 /\
    0 <= WebScraper.total_sleep tr <= 9.
Proof.
  unfold main. change (WebScraper.init 2 10 3) with (Ok (scraper 3)).
  destruct (scrape_articles_spec parse utcnow (scraper 3) net t0 t1 main_urls)
    as (rate & _ & Hrun).
  rewrite Hrun. do 3 eexists. split; [reflexivity|].
  pose proof (run_tasks_effort parse utcnow (scraper 3) net main_urls)
    as (Ha & Hs & _).
  unfold WebScraper.get_stats.
  cbn [WebScraper.stats WebScraper.set_stats scraper successful_items
       failed_items total_items status ScraperStats_default].
  change (Z.of_nat (List.length main_urls)) with 3 in *.
  change (WebScraper.max_retries (scraper 3)) with 3 in *.
  change (WebScraper.sum_pow2 (Z.to_nat (3 - 1))) with 3 in *.
  repeat split; lia.
Qed.

(** ** RateLimiter.wait *)




(** [wait] does not look at the clock again after its sleep: woken 0.05 s
    early, the single caller of [early_schedule] is granted 0.45 s after its
    previous grant, less than [min_interval = 0.5]. *)
Lemma wait_early_wakeup :
  exists c,
    RateLimiter.run (RateLimiter.start limiter2 1) early_schedule = Some c /\
    RateLimiter.punctual 0 (RateLimiter.start limiter2 1) early_schedule
      = false /\
    ~ RateLimiter.spaced (RateLimiter.min_interval limiter2)
        (RateLimiter.grants c).
Proof.
  eexists. split; [vm_compute; reflexivity|]. split; [vm_compute; reflexivity|].
  rewrite <- spacedb_spaced. vm_compute. discriminate.
Qed.

Lemma Qinv_neg (x : Q) : (x < 0)%Q -> (/ x < 0)%Q.
Proof.
  destruct x as [[|n|n] d]; unfold Qlt; simpl; intros H; lia.
Qed.

(** X15: a limiter built with a negative rate has a negative
    [min_interval] and limits nothing: unless the clock has gone back behind
    the stored time stamp, [wait] never sleeps and grants at once. *)
Theorem negative_rate_never_waits (rps : Q) (self : RateLimiter.t) :
  (rps < 0)%Q -> RateLimiter.init rps = Ok self ->
  (RateLimiter.min_interval self < 0)%Q /\
  forall last now : Q, (last <= now)%Q ->
    RateLimiter.wait (RateLimiter.set_last self last) now =
    RateLimiter.Finished (RateLimiter.set_last self now).
Proof.
  intros Hneg Hinit. unfold RateLimiter.init, truediv in Hinit.
  destruct (Qeq_bool rps 0); [discriminate|]. injection Hinit as <-.
  assert (Hmin : (1 / rps < 0)%Q).
  { unfold Qdiv. rewrite Qmult_1_l. apply Qinv_neg. exact Hneg. }
  split; [exact Hmin|]. intros last now Hle.
  unfold RateLimiter.wait. cbn [RateLimiter.set_last
    RateLimiter.last_request_time RateLimiter.min_interval].
  destruct (Qlt_le_dec (now - last) (1 / rps)) as [Hlt | Hge];
    [lra | reflexivity].
Qed.

Lemma negative_rate_never_waits_witness :
  RateLimiter.wait
    (RateLimiter.set_last
       {| RateLimiter.requests_per_second := (-2)%Q;
          RateLimiter.min_interval := (1 / -2)%Q;
          RateLimiter.last_request_time := 0%Q |} 10%Q) 10%Q =
  RateLimiter.Finished
    (RateLimiter.set_last
       {| RateLimiter.requests_per_second := (-2)%Q;
          RateLimiter.min_interval := (1 / -2)%Q;
          RateLimiter.last_request_time := 0%Q |} 10%Q).
Proof.
  apply (proj2 (negative_rate_never_waits (-2)%Q _ ltac:(reflexivity)
                  eq_refl)).
  discriminate.
Defined.
